(** * DynamoDB Streams client of goamz: [dynamodb/streams.go]

    A shallow embedding of the six request wrappers of [streams.go]
    ([DescribeStream], [ListStreams], [GetShardIteratorWithSeqNumber],
    [GetShardIterator], [GetRecordsWithLimit], [GetRecords]) and of the
    data they exchange, followed by the properties of the stream
    consumption protocol that can be read off them.

    Conventions of the embedding:
    - a Go [string] is a [string]; the named string types
      [ShardIteratorType], [StreamStatus], [StreamViewType] are [string];
    - a Go slice [[]T] is an [option (list T)], [None] being the [nil]
      slice (which Go tells apart from an empty, allocated one);
    - a Go pointer [*T] is an [option T], [None] being [nil];
    - the Go [error] interface is an [option error], [None] being [nil];
    - [int] and [int64] are [Z];
    - a method that talks to the server is a state transformer over the
      state of the outside world, so that the number and the order of
      the requests a call issues are part of what it computes. *)

From stdpp Require Import base option list strings gmap.
From Stdlib Require Import ZArith.

Open Scope string_scope.

(** ** Named string types and their constants *)

Definition ShardIteratorType := string.
Definition StreamStatus := string.
Definition StreamViewType := string.

Definition ShardIteratorAtSequenceNumber : ShardIteratorType := "AT_SEQUENCE_NUMBER".
Definition ShardIteratorAfterSequenceNumber : ShardIteratorType := "AFTER_SEQUENCE_NUMBER".
Definition ShardIteratorTrimHorizon : ShardIteratorType := "TRIM_HORIZON".
Definition ShardIteratorLatest : ShardIteratorType := "LATEST".

Definition StreamStatusCreating : StreamStatus := "CREATING".
Definition StreamStatusDeleting : StreamStatus := "DELETING".
Definition StreamStatusActive : StreamStatus := "ACTIVE".
Definition StreamStatusUpdating : StreamStatus := "UPDATING".

Definition StreamViewTypeKeysOnly : StreamViewType := "KEYS_ONLY".
Definition StreamViewTypeNewImage : StreamViewType := "NEW_IMAGE".
Definition StreamViewTypeOldImage : StreamViewType := "OLD_IMAGE".
Definition StreamViewTypeNewAndOldImage : StreamViewType := "NEW_AND_OLD_IMAGE".

(** ** Slices and pointers *)

Definition slice (A : Type) : Type := option (list A).

(** The elements of a slice; the [nil] slice has none. *)
Definition elems {A : Type} (s : slice A) : list A := default [] s.

(** ** Structures that mention no type of another file *)

Record SequenceNumberRangeT := {
  EndingSequenceNumber : string;
  StartingSequenceNumber : string
}.

Definition newline : string := String (Ascii.ascii_of_nat 10) EmptyString.

(** [func (s SequenceNumberRangeT) String() string] *)
Definition SequenceNumberRangeT_String (s : SequenceNumberRangeT) : string :=
  "{EndingSequenceNumber: " +:+ EndingSequenceNumber s +:+
  ", StartingSequenceNumber: " +:+ StartingSequenceNumber s +:+ "}" +:+ newline.

(** Whether the character [c] occurs in [s]. *)
Fixpoint mentions (c : Ascii.ascii) (s : string) : bool :=
  match s with
  | EmptyString => false
  | String c' s' => if decide (c' = c) then true else mentions c s'
  end.

Definition comma : Ascii.ascii := Ascii.ascii_of_nat 44.

Record ShardT := {
  ParentShardId : string;
  SequenceNumberRange : SequenceNumberRangeT;
  ShardId : string
}.

Record listStreamsResponse := {
  LastEvaluatedStreamId : string;
  StreamIds : slice string
}.

Record getShardIteratorResponse := {
  ShardIterator : string
}.

(** Zero values, as [var r T] leaves them. *)
Definition zero_SequenceNumberRangeT : SequenceNumberRangeT :=
  {| EndingSequenceNumber := ""; StartingSequenceNumber := "" |}.
Definition zero_listStreamsResponse : listStreamsResponse :=
  {| LastEvaluatedStreamId := ""; StreamIds := None |}.
Definition zero_getShardIteratorResponse : getShardIteratorResponse :=
  {| ShardIterator := "" |}.

(** ** Structures over the types of the other files of the package

    [KeySchemaT] (package [dynamodb]) and [DynamoItem] (package
    [dynamizer]) are declared outside [streams.go]; nothing here looks
    inside a value of either, so both stay parameters. *)

Section Structures.
Context {KeySchemaT DynamoItem : Type}.

Record StreamDescriptionT := {
  KeySchema : slice KeySchemaT;
  LastEvaluatedShardId : string;
  Shards : slice ShardT;
  StreamARN : string;
  StreamID : string;
  StreamDescriptionT_StreamStatus : StreamStatus;
  TableName : string
}.

Record describeStreamResponse := {
  StreamDescription : StreamDescriptionT
}.

Record StreamRecordT := {
  Keys : DynamoItem;
  NewImage : DynamoItem;
  OldImage : DynamoItem;
  SequenceNumber : string;
  SizeBytes : Z;
  StreamRecordT_StreamViewType : string
}.

Record RecordT := {
  AwsRegion : string;
  DynamoDB : StreamRecordT;
  EventID : string;
  EventName : string;
  EventSource : string;
  EventVersion : string
}.

Record getRecordsResponse := {
  NextShardIterator : string;
  Records : slice (option RecordT)
}.

Definition zero_StreamDescriptionT : StreamDescriptionT :=
  {| KeySchema := None; LastEvaluatedShardId := ""; Shards := None;
     StreamARN := ""; StreamID := "";
     StreamDescriptionT_StreamStatus := ""; TableName := "" |}.
Definition zero_describeStreamResponse : describeStreamResponse :=
  {| StreamDescription := zero_StreamDescriptionT |}.
Definition zero_getRecordsResponse : getRecordsResponse :=
  {| NextShardIterator := ""; Records := None |}.
End Structures.

Arguments StreamDescriptionT : clear implicits.
Arguments describeStreamResponse : clear implicits.
Arguments StreamRecordT : clear implicits.
Arguments RecordT : clear implicits.
Arguments getRecordsResponse : clear implicits.

(** ** Talking to the server

    [IO World A] is a computation that may change the state of the
    world (here: send requests to the server) and yields an [A]. *)

Definition IO (World A : Type) : Type := World -> A * World.

#[global] Instance IO_ret {World : Type} : MRet (IO World) :=
  fun A (a : A) w => (a, w).

#[global] Instance IO_bind {World : Type} : MBind (IO World) :=
  fun A B (k : A -> IO World B) (m : IO World A) w =>
    let '(a, w') := m w in k a w'.

(** [json.Unmarshal(data, &v)]: writes into [v] what it could decode of
    [data] and reports an error or [nil]. On an error [v] may already
    hold part of the document. *)
Class Unmarshal (bytes error T : Type) :=
  json_Unmarshal : bytes -> T -> T * option error.

(** ** The wrappers of [streams.go]

    What [streams.go] uses of the rest of the package stays abstract:
    the query builder ([NewEmptyQuery] and the [Add...Request] methods
    of [*Query], which fill the query in place and are modelled as
    functions on queries), [target], and the method [queryServer] of
    [*Server], which performs one exchange with the server and returns
    the body of the answer (a [[]byte]) with an error. *)

Module dynamodb.
Section Client.
Context {World ServerT Query bytes error KeySchemaT DynamoItem : Type}.

(** [type Table struct]: the two fields that [streams.go] reads. *)
Record Table := {
  Server : ServerT;
  Name : string
}.

Variable NewEmptyQuery : Query.
Variable AddDescribeStreamRequest : string -> Query -> Query.
Variable addTableByName : string -> Query -> Query.
Variable AddGetShardIteratorRequest :
  string -> string -> string -> string -> Query -> Query.
Variable AddGetRecordsRequest : string -> Z -> Query -> Query.
Variable target : string -> string.
Variable queryServer :
  ServerT -> string -> Query -> IO World (bytes * option error).

Context `{!Unmarshal bytes error (describeStreamResponse KeySchemaT)}.
Context `{!Unmarshal bytes error listStreamsResponse}.
Context `{!Unmarshal bytes error getShardIteratorResponse}.
Context `{!Unmarshal bytes error (getRecordsResponse DynamoItem)}.

(** [func (t *Table) DescribeStream(streamId string)], returning a
    [*StreamDescriptionT] and an [error]. *)
Definition DescribeStream (t : Table) (streamId : string)
  : IO World (option (StreamDescriptionT KeySchemaT) * option error) :=
  let q := NewEmptyQuery in
  let q := AddDescribeStreamRequest streamId q in
  '(jsonResponse, err) ← queryServer (Server t) (target "DescribeStream") q;
  if err is Some e then mret (None, Some e) else
  let '(r, err) := json_Unmarshal jsonResponse zero_describeStreamResponse in
  if err is Some e then mret (None, Some e) else
  mret (Some (StreamDescription r), None).

(** [func (t *Table) ListStreams() ([]string, error)] *)
Definition ListStreams (t : Table)
  : IO World (slice string * option error) :=
  let q := NewEmptyQuery in
  let q := addTableByName (Name t) q in
  '(jsonResponse, err) ← queryServer (Server t) (target "ListStreams") q;
  if err is Some e then mret (None, Some e) else
  let '(r, err) := json_Unmarshal jsonResponse zero_listStreamsResponse in
  if err is Some e then mret (None, Some e) else
  mret (StreamIds r, None).

(** [func (t *Table) GetShardIteratorWithSeqNumber(streamId, shardId
      string, shardIteratorType ShardIteratorType, seqNumber string)
      (string, error)] *)
Definition GetShardIteratorWithSeqNumber (t : Table)
    (streamId shardId : string) (shardIteratorType : ShardIteratorType)
    (seqNumber : string)
  : IO World (string * option error) :=
  let q := NewEmptyQuery in
  let q := AddGetShardIteratorRequest streamId shardId shardIteratorType
             seqNumber q in
  '(jsonResponse, err) ← queryServer (Server t) (target "GetShardIterator") q;
  if err is Some e then mret ("", Some e) else
  let '(r, err) := json_Unmarshal jsonResponse zero_getShardIteratorResponse in
  if err is Some e then mret ("", Some e) else
  mret (ShardIterator r, None).

(** [func (t *Table) GetShardIterator(streamId, shardId string,
      shardIteratorType ShardIteratorType) (string, error)] *)
Definition GetShardIterator (t : Table) (streamId shardId : string)
    (shardIteratorType : ShardIteratorType)
  : IO World (string * option error) :=
  GetShardIteratorWithSeqNumber t streamId shardId shardIteratorType "".

(** [func (t *Table) GetRecordsWithLimit(shardIterator string, limit int)
      (string, []*RecordT, error)] *)
Definition GetRecordsWithLimit (t : Table) (shardIterator : string)
    (limit : Z)
  : IO World (string * slice (option (RecordT DynamoItem)) * option error) :=
  let q := NewEmptyQuery in
  let q := AddGetRecordsRequest shardIterator limit q in
  '(jsonResponse, err) ← queryServer (Server t) (target "GetRecords") q;
  if err is Some e then mret ("", None, Some e) else
  let '(r, err) := json_Unmarshal jsonResponse zero_getRecordsResponse in
  if err is Some e then mret ("", None, Some e) else
  mret (NextShardIterator r, Records r, None).

(** [func (t *Table) GetRecords(shardIterator string)
      (string, []*RecordT, error)] *)
Definition GetRecords (t : Table) (shardIterator : string)
  : IO World (string * slice (option (RecordT DynamoItem)) * option error) :=
  GetRecordsWithLimit t shardIterator 0.
End Client.

Arguments Table : clear implicits.
End dynamodb.
Export dynamodb.

(** ** Test doubles of the server

    Concrete collaborators on which the wrappers can be run: a query is
    the list of its fields, the body of an answer is the document it
    carries, and the server is either a directory that pages its
    answers or a queue of prepared answers. *)

Module Wire.

Inductive Field :=
| FString (s : string)
| FInt (n : Z).

Definition Query := list (string * Field).

Fixpoint field (k : string) (q : Query) : option Field :=
  match q with
  | [] => None
  | (k', v) :: q' => if decide (k' = k) then Some v else field k q'
  end.

Definition stringField (k : string) (q : Query) : string :=
  match field k q with
  | Some (FString s) => s
  | _ => ""
  end.

Definition NewEmptyQuery : Query := [].

Definition AddDescribeStreamRequest (streamId : string) (q : Query) : Query :=
  ("StreamId", FString streamId) :: q.

Definition addTableByName (name : string) (q : Query) : Query :=
  ("TableName", FString name) :: q.

Definition AddGetShardIteratorRequest
    (streamId shardId shardIteratorType sequenceNumber : string) (q : Query)
  : Query :=
  ("StreamId", FString streamId) :: ("ShardId", FString shardId) ::
  ("ShardIteratorType", FString shardIteratorType) ::
  ("SequenceNumber", FString sequenceNumber) :: q.

Definition AddGetRecordsRequest (shardIterator : string) (limit : Z)
    (q : Query) : Query :=
  ("ShardIterator", FString shardIterator) :: ("Limit", FInt limit) :: q.

Definition target (name : string) : string :=
  "DynamoDBStreams_20120810." +:+ name.

Definition KeySchemaT : Type := string * string.
Definition DynamoItem : Type := list (string * string).

Inductive Err :=
| ProviderError (code : string)
| SyntaxError
| UnmarshalTypeError.

(** The document in the body of an answer. [Mistyped d] is [d] with a
    field of the wrong JSON type next to it: the decoder fills in the
    rest and reports the type error. [Garbled] is no JSON at all. *)
Inductive Body :=
| DescribeStreamBody (r : describeStreamResponse KeySchemaT)
| ListStreamsBody (r : listStreamsResponse)
| GetShardIteratorBody (r : getShardIteratorResponse)
| GetRecordsBody (r : getRecordsResponse DynamoItem)
| Mistyped (d : Body)
| Garbled.

(** Decoding into a structure of kind [T], [pick] telling the documents
    of that kind. The fields of a document of another kind are unknown
    to [T] and skipped, which leaves [v] as it was. *)
Fixpoint decode {T : Type} (pick : Body -> option T) (b : Body) (v : T)
  : T * option Err :=
  match b with
  | Garbled => (v, Some SyntaxError)
  | Mistyped d => ((decode pick d v).1, Some UnmarshalTypeError)
  | _ => (default v (pick b), None)
  end.

#[global] Instance Unmarshal_describeStreamResponse
  : Unmarshal Body Err (describeStreamResponse KeySchemaT) :=
  decode (fun b => if b is DescribeStreamBody r then Some r else None).

#[global] Instance Unmarshal_listStreamsResponse
  : Unmarshal Body Err listStreamsResponse :=
  decode (fun b => if b is ListStreamsBody r then Some r else None).

#[global] Instance Unmarshal_getShardIteratorResponse
  : Unmarshal Body Err getShardIteratorResponse :=
  decode (fun b => if b is GetShardIteratorBody r then Some r else None).

#[global] Instance Unmarshal_getRecordsResponse
  : Unmarshal Body Err (getRecordsResponse DynamoItem) :=
  decode (fun b => if b is GetRecordsBody r then Some r else None).

End Wire.

(** A server that answers from a queue of prepared answers, whatever it
    is asked, and keeps the requests it received. *)
Module Canned.
Import Wire.

Record World := {
  answers : list (Body * option Err);
  received : list (string * Query)
}.

Definition queryServer (srv : unit) (tgt : string) (q : Query)
  : IO World (Body * option Err) :=
  fun w =>
    let log := (received w ++ [(tgt, q)])%list in
    match answers w with
    | [] => ((Garbled, Some (ProviderError "ConnectionClosed")),
             {| answers := []; received := log |})
    | a :: rest => (a, {| answers := rest; received := log |})
    end.

Definition table : Table unit := {| Server := (); Name := "orders" |}.

Definition DescribeStream :=
  DescribeStream NewEmptyQuery AddDescribeStreamRequest target queryServer.
Definition ListStreams :=
  ListStreams NewEmptyQuery addTableByName target queryServer.
Definition GetShardIteratorWithSeqNumber :=
  GetShardIteratorWithSeqNumber NewEmptyQuery AddGetShardIteratorRequest
    target queryServer.
Definition GetShardIterator :=
  GetShardIterator NewEmptyQuery AddGetShardIteratorRequest target queryServer.
Definition GetRecordsWithLimit :=
  GetRecordsWithLimit NewEmptyQuery AddGetRecordsRequest target queryServer.
Definition GetRecords :=
  GetRecords NewEmptyQuery AddGetRecordsRequest target queryServer.

End Canned.

(** Modelled from the spec: the paginated [ListStreams] and
    [DescribeStream] operations of the provider (section 6), which are
    not part of [streams.go]. The provider holds the stream identifiers
    of each table and the shards of each stream in a fixed order and
    hands them out [pageSize] at a time; an answer that leaves entries
    behind names the last one it returned as the last-evaluated cursor,
    and a request carrying that cursor as its exclusive start is
    answered from the entry after it. *)
Module Paged.
Import Wire.

Record World := {
  streamsOf : list (string * list string);
  shardsOf : list (string * list ShardT);
  pageSize : nat;
  received : list (string * Query)
}.

Fixpoint lookupBy {A : Type} (k : string) (l : list (string * A)) : option A :=
  match l with
  | [] => None
  | (k', v) :: l' => if decide (k' = k) then Some v else lookupBy k l'
  end.

(** What follows the entry named by the cursor. *)
Fixpoint after {A : Type} (key : A -> string) (cursor : string) (l : list A)
  : list A :=
  match l with
  | [] => []
  | x :: l' => if decide (key x = cursor) then l' else after key cursor l'
  end.

Definition page {A : Type} (key : A -> string) (n : nat) (cursor : string)
    (l : list A) : list A * string :=
  let rest := if decide (cursor = "") then l else after key cursor l in
  let p := take n rest in
  (p, if decide (length rest <= n)%nat then "" else default "" (key <$> last p)).

(** A cursor into a list: either none, at the start, or the key of the
    entry that ends the part already handed out. *)
Definition cursorAt {A : Type} (key : A -> string) (cursor : string)
    (pre : list A) : Prop :=
  (cursor = "" /\ pre = []) \/
  (cursor <> "" /\ exists pre' x, pre = (pre' ++ [x])%list /\ key x = cursor).

Definition answer (tgt : string) (q : Query) (w : World) : Body * option Err :=
  if decide (tgt = target "ListStreams") then
    match lookupBy (stringField "TableName" q) (streamsOf w) with
    | None => (Garbled, Some (ProviderError "ResourceNotFoundException"))
    | Some ids =>
        let '(p, c) := page id (pageSize w)
                         (stringField "ExclusiveStartStreamId" q) ids in
        (ListStreamsBody {| LastEvaluatedStreamId := c; StreamIds := Some p |},
         None)
    end
  else if decide (tgt = target "DescribeStream") then
    match lookupBy (stringField "StreamId" q) (shardsOf w) with
    | None => (Garbled, Some (ProviderError "ResourceNotFoundException"))
    | Some shards =>
        let '(p, c) := page ShardId (pageSize w)
                         (stringField "ExclusiveStartShardId" q) shards in
        (DescribeStreamBody {| StreamDescription :=
           {| KeySchema := Some [("id", "HASH")];
              LastEvaluatedShardId := c;
              Shards := Some p;
              StreamARN := "";
              StreamID := stringField "StreamId" q;
              StreamDescriptionT_StreamStatus := StreamStatusActive;
              TableName := "" |} |},
         None)
    end
  else (Garbled, Some (ProviderError "UnknownOperationException")).

Definition queryServer (srv : unit) (tgt : string) (q : Query)
  : IO World (Body * option Err) :=
  fun w =>
    (answer tgt q w,
     {| streamsOf := streamsOf w; shardsOf := shardsOf w;
        pageSize := pageSize w;
        received := (received w ++ [(tgt, q)])%list |}).

Definition table : Table unit := {| Server := (); Name := "orders" |}.

Definition DescribeStream :=
  DescribeStream NewEmptyQuery AddDescribeStreamRequest target queryServer.
Definition ListStreams :=
  ListStreams NewEmptyQuery addTableByName target queryServer.

(** The query of a [ListStreams] request that starts after [cursor]. *)
Definition listStreamsQuery (name cursor : string) : Query :=
  if decide (cursor = "") then addTableByName name NewEmptyQuery
  else ("ExclusiveStartStreamId", FString cursor)
         :: addTableByName name NewEmptyQuery.

(** The query of a [DescribeStream] request that starts after [cursor]. *)
Definition describeStreamQuery (streamId cursor : string) : Query :=
  if decide (cursor = "") then AddDescribeStreamRequest streamId NewEmptyQuery
  else ("ExclusiveStartShardId", FString cursor)
         :: AddDescribeStreamRequest streamId NewEmptyQuery.

(** A client that does what section 4.1 asks of [listStreams]: it asks
    again from the last-evaluated cursor until an answer carries none,
    and returns the pages joined in the order received. [fuel] bounds
    the number of pages. *)
Fixpoint ListStreams_spec_from (fuel : nat) (t : Table unit) (cursor : string)
  : IO World (list string * option Err) :=
  match fuel with
  | O => mret ([], Some (ProviderError "TooManyPages"))
  | S fuel' =>
      let q := listStreamsQuery (Name t) cursor in
      '(jsonResponse, err) ← queryServer (Server t) (target "ListStreams") q;
      if err is Some e then mret ([], Some e) else
      let '(r, err) := json_Unmarshal jsonResponse zero_listStreamsResponse in
      if err is Some e then mret ([], Some e) else
      if decide (LastEvaluatedStreamId r = "") then mret (elems (StreamIds r), None)
      else
        '(more, err) ← ListStreams_spec_from fuel' t (LastEvaluatedStreamId r);
        if err is Some e then mret ([], Some e) else
        mret ((elems (StreamIds r) ++ more)%list, None)
  end.

Definition ListStreams_spec (fuel : nat) (t : Table unit)
  : IO World (list string * option Err) :=
  ListStreams_spec_from fuel t "".

(** The same for [DescribeStream] (section 6): the shards of all the
    pages, joined in the order received. *)
Fixpoint DescribeStream_spec_from (fuel : nat) (t : Table unit)
    (streamId cursor : string)
  : IO World (list ShardT * option Err) :=
  match fuel with
  | O => mret ([], Some (ProviderError "TooManyPages"))
  | S fuel' =>
      let q := describeStreamQuery streamId cursor in
      '(jsonResponse, err) ← queryServer (Server t) (target "DescribeStream") q;
      if err is Some e then mret ([], Some e) else
      let '(r, err) := json_Unmarshal jsonResponse
                         (zero_describeStreamResponse (KeySchemaT := KeySchemaT)) in
      if err is Some e then mret ([], Some e) else
      let d := StreamDescription r in
      if decide (LastEvaluatedShardId d = "") then mret (elems (Shards d), None)
      else
        '(more, err) ← DescribeStream_spec_from fuel' t streamId
                          (LastEvaluatedShardId d);
        if err is Some e then mret ([], Some e) else
        mret ((elems (Shards d) ++ more)%list, None)
  end.

Definition DescribeStream_spec (fuel : nat) (t : Table unit) (streamId : string)
  : IO World (list ShardT * option Err) :=
  DescribeStream_spec_from fuel t streamId "".

End Paged.

(** ** Shard Tree

    Modelled from the spec: the Shard Tree of section 4.2 ([insert],
    [eligibleShards], [markCompleted]), of which [streams.go] has the
    shard structure [ShardT] only. Following section 9 the tree is an
    arena of shard records keyed by shard identifier with a separate
    completed set. A shard whose [ParentShardId] is empty has no parent
    (section 3: absent parent, root shard). *)
Module ShardTree.

Record t := {
  arena : gmap string ShardT;
  completed : gset string
}.

Definition empty : t := {| arena := ∅; completed := ∅ |}.

(** [insert(shards)]: enters the shards under their identifiers; a
    shard entered again replaces its record. *)
Definition insertShards (shards : list ShardT) (tr : t) : t :=
  {| arena := foldr (fun sh m => <[ShardId sh := sh]> m) (arena tr) shards;
     completed := completed tr |}.

(** "a shard is eligible once its parent is absent or is a member of
    completed" *)
Definition eligible (done : gset string) (sh : ShardT) : bool :=
  bool_decide (ParentShardId sh = "") || bool_decide (ParentShardId sh ∈ done).

(** [eligibleShards(completed)]: the shards of the tree that are
    eligible, those that are completed themselves left out ("no shard
    is ever returned as eligible twice after being marked
    completed"). *)
Definition eligibleShards (tr : t) (done : gset string) : gset string :=
  dom (filter (fun kv => eligible done kv.2 = true) (arena tr)) ∖ done.

(** [markCompleted(shardId)]: nothing ever leaves the completed set. *)
Definition markCompleted (shardId : string) (tr : t) : t :=
  {| arena := arena tr; completed := {[shardId]} ∪ completed tr |}.

(** What the tree reports eligible given what it has recorded as
    completed. *)
Definition report (tr : t) : gset string := eligibleShards tr (completed tr).

(** The operations that change a tree, and a sequence of them applied
    in the order given. *)
Inductive op :=
| Insert (shards : list ShardT)
| MarkCompleted (shardId : string).

Definition apply (tr : t) (o : op) : t :=
  match o with
  | Insert shards => insertShards shards tr
  | MarkCompleted shardId => markCompleted shardId tr
  end.

Definition run (ops : list op) (tr : t) : t := foldl apply tr ops.

End ShardTree.

(** ** Record Fetcher

    Modelled from the spec: the Record Fetcher of section 4.4 and the
    cursor it advances (section 4.3), of which [streams.go] has the
    request [GetRecordsWithLimit] only. [fetch] exchanges the cursor
    held for a shard for one page of records and a next cursor or none;
    the absence of a next cursor is what marks the shard exhausted, and
    a fetch that fails leaves the cursor held as it was (section 5: a
    cursor is only superseded by a successful fetch). An empty next
    iterator of [GetRecordsWithLimit] is the absent cursor. *)
Module Fetcher.
Section Pager.
Context {World ServerT Query bytes error DynamoItem : Type}.
Variable NewEmptyQuery : Query.
Variable AddGetRecordsRequest : string -> Z -> Query -> Query.
Variable target : string -> string.
Variable queryServer :
  ServerT -> string -> Query -> IO World (bytes * option error).
Context `{!Unmarshal bytes error (getRecordsResponse DynamoItem)}.

(** The position held in a shard: a cursor, or none any more. *)
Inductive position :=
| Open (cursor : string)
| Exhausted.

(** The outcome of a fetch. *)
Inductive fetched :=
| Page (records : slice (option (RecordT DynamoItem)))
       (nextCursor : option string)
| Failure (e : error).

(** [fetch(cursor, limit)] *)
Definition fetch (t : Table ServerT) (cursor : string) (limit : Z)
  : IO World fetched :=
  '(next, records, err) ←
     GetRecordsWithLimit NewEmptyQuery AddGetRecordsRequest target queryServer
       t cursor limit;
  if err is Some e then mret (Failure e) else
  mret (Page records (if decide (next = "") then None else Some next)).

(** The position after a fetch made from [cursor]. *)
Definition advance (cursor : string) (f : fetched) : position :=
  match f with
  | Page _ None => Exhausted
  | Page _ (Some next) => Open next
  | Failure _ => Open cursor
  end.

(** One round of the pager on a shard: nothing is asked of an exhausted
    shard. *)
Definition poll (t : Table ServerT) (limit : Z) (p : position)
  : IO World (position * option fetched) :=
  match p with
  | Exhausted => mret (Exhausted, None)
  | Open cursor =>
      f ← fetch t cursor limit;
      mret (advance cursor f, Some f)
  end.
End Pager.

Arguments fetched : clear implicits.
End Fetcher.


(** ** Sample data for the test doubles *)
Module Sample.
Import Wire.

Definition mkShard (shardId parent first last : string) : ShardT :=
  {| ParentShardId := parent;
     SequenceNumberRange :=
       {| EndingSequenceNumber := last; StartingSequenceNumber := first |};
     ShardId := shardId |}.

(** A closed root shard and the two shards it was split into. *)
Definition S0 : ShardT := mkShard "S0" "" "1" "100".
Definition S1 : ShardT := mkShard "S1" "S0" "101" "".
Definition S2 : ShardT := mkShard "S2" "S0" "101" "".

Definition mkRecord (seq : string) : option (RecordT DynamoItem) :=
  Some {| AwsRegion := "eu-west-1";
          DynamoDB := {| Keys := [("id", seq)]; NewImage := []; OldImage := [];
                         SequenceNumber := seq; SizeBytes := 8;
                         StreamRecordT_StreamViewType := StreamViewTypeKeysOnly |};
          EventID := seq; EventName := "INSERT";
          EventSource := "aws:dynamodb"; EventVersion := "1.0" |}.

(** A table with three streams and a stream with three shards, served
    two at a time. *)
Definition directory : Paged.World :=
  {| Paged.streamsOf := [("orders", ["s1"; "s2"; "s3"])];
     Paged.shardsOf := [("s1", [S0; S1; S2])];
     Paged.pageSize := 2;
     Paged.received := [] |}.

Definition ask (tgt : string) (q : Query) (w : Paged.World) : Paged.World :=
  {| Paged.streamsOf := Paged.streamsOf w; Paged.shardsOf := Paged.shardsOf w;
     Paged.pageSize := Paged.pageSize w;
     Paged.received := (Paged.received w ++ [(tgt, q)])%list |}.

Definition firstStreams : listStreamsResponse :=
  {| LastEvaluatedStreamId := "s2"; StreamIds := Some ["s1"; "s2"] |}.

Definition firstShards : describeStreamResponse KeySchemaT :=
  {| StreamDescription :=
       {| KeySchema := Some [("id", "HASH")];
          LastEvaluatedShardId := "S1";
          Shards := Some [S0; S1];
          StreamARN := "";
          StreamID := "s1";
          StreamDescriptionT_StreamStatus := StreamStatusActive;
          TableName := "" |} |}.

Definition canned (l : list (Body * option Err)) : Canned.World :=
  {| Canned.answers := l; Canned.received := [] |}.

Definition iterator1 : getShardIteratorResponse := {| ShardIterator := "it-1" |}.

Definition twoRecords : getRecordsResponse DynamoItem :=
  {| NextShardIterator := "it-2"; Records := Some [mkRecord "7"; mkRecord "9"] |}.


(** The last record of a closed shard: no next iterator. *)
Definition lastRecords : getRecordsResponse DynamoItem :=
  {| NextShardIterator := ""; Records := Some [mkRecord "100"] |}.

Definition throttled : Err :=
  ProviderError "ProvisionedThroughputExceededException".

(** The server throttles the first request and would answer the next. *)
Definition throttledOnce : Canned.World :=
  canned [(Garbled, Some throttled); (GetRecordsBody twoRecords, None)].

(** An answer whose stream identifiers decode but which has a field of
    the wrong type. *)
Definition mistyped : Canned.World :=
  canned [(Mistyped (ListStreamsBody firstStreams), None)].

(** Another table of the same server. *)
Definition invoices : Table unit := {| Server := (); Name := "invoices" |}.

(** The sequence-number range of the closed shard S0. *)
Definition closedRange : SequenceNumberRangeT := SequenceNumberRange S0.

(** The split of S0 as a shard tree with nothing completed yet. *)
Definition family : ShardTree.t :=
  ShardTree.insertShards [S0; S1; S2] ShardTree.empty.

End Sample.

(** * Properties of the wrappers *)

Section ClientFacts.
Context {World ServerT Query bytes error KeySchemaT DynamoItem : Type}.
Variable NewEmptyQuery : Query.
Variable AddDescribeStreamRequest : string -> Query -> Query.
Variable addTableByName : string -> Query -> Query.
Variable AddGetShardIteratorRequest :
  string -> string -> string -> string -> Query -> Query.
Variable AddGetRecordsRequest : string -> Z -> Query -> Query.
Variable target : string -> string.
Variable queryServer :
  ServerT -> string -> Query -> IO World (bytes * option error).
Context `{!Unmarshal bytes error (describeStreamResponse KeySchemaT)}.
Context `{!Unmarshal bytes error listStreamsResponse}.
Context `{!Unmarshal bytes error getShardIteratorResponse}.
Context `{!Unmarshal bytes error (getRecordsResponse DynamoItem)}.

#[local] Abbreviation DescribeStream :=
  (DescribeStream NewEmptyQuery AddDescribeStreamRequest target queryServer).
#[local] Abbreviation ListStreams :=
  (ListStreams NewEmptyQuery addTableByName target queryServer).
#[local] Abbreviation GetShardIteratorWithSeqNumber :=
  (GetShardIteratorWithSeqNumber NewEmptyQuery AddGetShardIteratorRequest
     target queryServer).
#[local] Abbreviation GetShardIterator :=
  (GetShardIterator NewEmptyQuery AddGetShardIteratorRequest target queryServer).
#[local] Abbreviation GetRecordsWithLimit :=
  (GetRecordsWithLimit NewEmptyQuery AddGetRecordsRequest target queryServer).
#[local] Abbreviation GetRecords :=
  (GetRecords NewEmptyQuery AddGetRecordsRequest target queryServer).

(** The one request each wrapper sends. *)
#[local] Abbreviation describeStreamCall t streamId :=
  (queryServer (Server t) (target "DescribeStream")
     (AddDescribeStreamRequest streamId NewEmptyQuery)).
#[local] Abbreviation listStreamsCall t :=
  (queryServer (Server t) (target "ListStreams")
     (addTableByName (Name t) NewEmptyQuery)).
#[local] Abbreviation getShardIteratorCall t streamId shardId ty seq :=
  (queryServer (Server t) (target "GetShardIterator")
     (AddGetShardIteratorRequest streamId shardId ty seq NewEmptyQuery)).
#[local] Abbreviation getRecordsCall t shardIterator limit :=
  (queryServer (Server t) (target "GetRecords")
     (AddGetRecordsRequest shardIterator limit NewEmptyQuery)).

(** Each wrapper is one exchange followed by one decoding; the four
    lemmas below spell out the three ways through it. *)

Lemma DescribeStream_run (t : Table ServerT) (streamId : string) (w : World) :
  DescribeStream t streamId w =
  let '((jsonResponse, qerr), w') := describeStreamCall t streamId w in
  match qerr with
  | Some e => ((None, Some e), w')
  | None =>
      match json_Unmarshal jsonResponse zero_describeStreamResponse with
      | (_, Some e) => ((None, Some e), w')
      | (r, None) => ((Some (StreamDescription r), None), w')
      end
  end.
Proof.
  unfold dynamodb.DescribeStream, mbind, IO_bind, mret, IO_ret.
  destruct (describeStreamCall t streamId w) as [[body [e|]] w']; [done|].
  by destruct (json_Unmarshal body zero_describeStreamResponse) as [r [e|]].
Qed.

Lemma ListStreams_run (t : Table ServerT) (w : World) :
  ListStreams t w =
  let '((jsonResponse, qerr), w') := listStreamsCall t w in
  match qerr with
  | Some e => ((None, Some e), w')
  | None =>
      match json_Unmarshal jsonResponse zero_listStreamsResponse with
      | (_, Some e) => ((None, Some e), w')
      | (r, None) => ((StreamIds r, None), w')
      end
  end.
Proof.
  unfold dynamodb.ListStreams, mbind, IO_bind, mret, IO_ret.
  destruct (listStreamsCall t w) as [[body [e|]] w']; [done|].
  by destruct (json_Unmarshal body zero_listStreamsResponse) as [r [e|]].
Qed.

Lemma GetShardIteratorWithSeqNumber_run (t : Table ServerT)
    (streamId shardId : string) (ty : ShardIteratorType) (seq : string)
    (w : World) :
  GetShardIteratorWithSeqNumber t streamId shardId ty seq w =
  let '((jsonResponse, qerr), w') :=
    getShardIteratorCall t streamId shardId ty seq w in
  match qerr with
  | Some e => (("", Some e), w')
  | None =>
      match json_Unmarshal jsonResponse zero_getShardIteratorResponse with
      | (_, Some e) => (("", Some e), w')
      | (r, None) => ((ShardIterator r, None), w')
      end
  end.
Proof.
  unfold dynamodb.GetShardIteratorWithSeqNumber, mbind, IO_bind, mret, IO_ret.
  destruct (getShardIteratorCall t streamId shardId ty seq w)
    as [[body [e|]] w']; [done|].
  by destruct (json_Unmarshal body zero_getShardIteratorResponse) as [r [e|]].
Qed.

Lemma GetRecordsWithLimit_run (t : Table ServerT) (shardIterator : string)
    (limit : Z) (w : World) :
  GetRecordsWithLimit t shardIterator limit w =
  let '((jsonResponse, qerr), w') := getRecordsCall t shardIterator limit w in
  match qerr with
  | Some e => (("", None, Some e), w')
  | None =>
      match json_Unmarshal jsonResponse zero_getRecordsResponse with
      | (_, Some e) => (("", None, Some e), w')
      | (r, None) => ((NextShardIterator r, Records r, None), w')
      end
  end.
Proof.
  unfold dynamodb.GetRecordsWithLimit, mbind, IO_bind, mret, IO_ret.
  destruct (getRecordsCall t shardIterator limit w) as [[body [e|]] w']; [done|].
  by destruct (json_Unmarshal body zero_getRecordsResponse) as [r [e|]].
Qed.

(** C1 (as amended). [ListStreams] sends one [ListStreams] request for
    the table and, when the exchange and the decoding succeed, returns
    the stream identifiers of that one answer, in the order decoded,
    whatever the last-evaluated stream identifier of the answer is; the
    world is left as that single exchange left it, so no further page
    has been asked for. *)
Theorem ListStreams_returns_first_page (t : Table ServerT) (w w' : World)
    (body : bytes) (r : listStreamsResponse) :
  listStreamsCall t w = ((body, None), w') ->
  json_Unmarshal body zero_listStreamsResponse = (r, None) ->
  ListStreams t w = ((StreamIds r, None), w').
Proof.
  intros Hcall Hdec. by rewrite ListStreams_run, Hcall, Hdec.
Qed.

(** C2 (as amended). [GetShardIteratorWithSeqNumber] checks nothing of
    the iterator type against the sequence number: for every iterator
    type and every sequence number, empty or not, it sends the
    [GetShardIterator] request built from them, and whenever the server
    answers that request with a body that decodes, the call succeeds
    with the decoded iterator. *)
Theorem GetShardIteratorWithSeqNumber_forwards_any_combination
    (t : Table ServerT) (streamId shardId : string) (ty : ShardIteratorType)
    (seq : string) (w w' : World) (body : bytes)
    (r : getShardIteratorResponse) :
  getShardIteratorCall t streamId shardId ty seq w = ((body, None), w') ->
  json_Unmarshal body zero_getShardIteratorResponse = (r, None) ->
  GetShardIteratorWithSeqNumber t streamId shardId ty seq w
  = ((ShardIterator r, None), w').
Proof.
  intros Hcall Hdec.
  by rewrite GetShardIteratorWithSeqNumber_run, Hcall, Hdec.
Qed.

(** C3 (as amended). [DescribeStream] sends one [DescribeStream]
    request and, when the exchange and the decoding succeed, returns the
    stream description of that one answer as decoded: its shards are
    those of that answer and its [LastEvaluatedShardId] is handed to the
    caller unchanged; the world is left as that single exchange left
    it. *)
Theorem DescribeStream_returns_first_page (t : Table ServerT)
    (streamId : string) (w w' : World) (body : bytes)
    (r : describeStreamResponse KeySchemaT) :
  describeStreamCall t streamId w = ((body, None), w') ->
  json_Unmarshal body zero_describeStreamResponse = (r, None) ->
  DescribeStream t streamId w = ((Some (StreamDescription r), None), w').
Proof.
  intros Hcall Hdec. by rewrite DescribeStream_run, Hcall, Hdec.
Qed.

(** C4 (as amended). [GetRecordsWithLimit] does not retry: when its one
    exchange with the server fails, with a throttling error or any
    other, the call returns that error at once, with an empty iterator
    and a nil page, and the world is left as that single exchange left
    it. *)
Theorem GetRecordsWithLimit_returns_first_failure (t : Table ServerT)
    (shardIterator : string) (limit : Z) (w w' : World) (body : bytes)
    (e : error) :
  getRecordsCall t shardIterator limit w = ((body, Some e), w') ->
  GetRecordsWithLimit t shardIterator limit w = (("", None, Some e), w').
Proof.
  intros Hcall. by rewrite GetRecordsWithLimit_run, Hcall.
Qed.

(** C5. A call of [GetRecordsWithLimit] or [GetRecords] that returns no
    error returns as its page the very slice of records decoded from the
    body the server answered with: same records, same order, none
    dropped and none added. *)
Theorem GetRecords_page_as_received (t : Table ServerT)
    (shardIterator : string) (w w' : World) (next : string)
    (page : slice (option (RecordT DynamoItem))) :
  (forall limit : Z,
     GetRecordsWithLimit t shardIterator limit w = ((next, page, None), w') ->
     exists body r,
       getRecordsCall t shardIterator limit w = ((body, None), w') /\
       json_Unmarshal body zero_getRecordsResponse = (r, None) /\
       page = Records r) /\
  (GetRecords t shardIterator w = ((next, page, None), w') ->
   exists body r,
     getRecordsCall t shardIterator 0 w = ((body, None), w') /\
     json_Unmarshal body zero_getRecordsResponse = (r, None) /\
     page = Records r).
Proof.
  assert (Hlim : forall limit : Z,
     GetRecordsWithLimit t shardIterator limit w = ((next, page, None), w') ->
     exists body r,
       getRecordsCall t shardIterator limit w = ((body, None), w') /\
       json_Unmarshal body zero_getRecordsResponse = (r, None) /\
       page = Records r).
  { intros limit. rewrite GetRecordsWithLimit_run.
    destruct (getRecordsCall t shardIterator limit w) as [[body [e|]] w1];
      [intros [=]|].
    destruct (json_Unmarshal body zero_getRecordsResponse) as [r [e|]] eqn:Hdec;
      intros [= <- <- <-].
    by exists body, r. }
  split; [exact Hlim | apply Hlim].
Qed.

(** C8. [GetRecords] is [GetRecordsWithLimit] with limit 0: for every
    shard iterator both return the same next iterator, records and
    error, and leave the same world. *)
Theorem GetRecords_is_GetRecordsWithLimit_0 (t : Table ServerT)
    (shardIterator : string) (w : World) :
  GetRecords t shardIterator w = GetRecordsWithLimit t shardIterator 0 w.
Proof. reflexivity. Qed.

(** C9. [GetShardIterator] is [GetShardIteratorWithSeqNumber] with the
    empty string as sequence number, for every iterator type, the two
    that start from a sequence number included. *)
Theorem GetShardIterator_is_WithSeqNumber_empty (t : Table ServerT)
    (streamId shardId : string) (ty : ShardIteratorType) (w : World) :
  GetShardIterator t streamId shardId ty w
  = GetShardIteratorWithSeqNumber t streamId shardId ty "" w /\
  GetShardIterator t streamId shardId ShardIteratorAtSequenceNumber w
  = GetShardIteratorWithSeqNumber t streamId shardId
      ShardIteratorAtSequenceNumber "" w /\
  GetShardIterator t streamId shardId ShardIteratorAfterSequenceNumber w
  = GetShardIteratorWithSeqNumber t streamId shardId
      ShardIteratorAfterSequenceNumber "" w.
Proof. done. Qed.

(** C10. Whenever [DescribeStream], [ListStreams],
    [GetShardIteratorWithSeqNumber] or [GetRecordsWithLimit] returns an
    error, be it the error of the exchange or the error of the decoding,
    everything else it returns is a zero value: the nil pointer, the nil
    slice, the empty string. What the decoder had already written into
    the response structure is not returned. *)
Theorem error_comes_with_zero_values (t : Table ServerT) (w : World) :
  (forall streamId d e w',
     DescribeStream t streamId w = ((d, Some e), w') -> d = None) /\
  (forall ids e w',
     ListStreams t w = ((ids, Some e), w') -> ids = None) /\
  (forall streamId shardId ty seq it e w',
     GetShardIteratorWithSeqNumber t streamId shardId ty seq w
     = ((it, Some e), w') -> it = "") /\
  (forall shardIterator limit next page e w',
     GetRecordsWithLimit t shardIterator limit w = ((next, page, Some e), w') ->
     next = "" /\ page = None).
Proof.
  split; [|split; [|split]].
  - intros streamId d e w'. rewrite DescribeStream_run.
    destruct (describeStreamCall t streamId w) as [[body [e1|]] w1];
      [by intros [= <- _ _]|].
    by destruct (json_Unmarshal body zero_describeStreamResponse) as [r [e1|]];
      intros [=].
  - intros ids e w'. rewrite ListStreams_run.
    destruct (listStreamsCall t w) as [[body [e1|]] w1]; [by intros [= <- _ _]|].
    by destruct (json_Unmarshal body zero_listStreamsResponse) as [r [e1|]];
      intros [=].
  - intros streamId shardId ty seq it e w'.
    rewrite GetShardIteratorWithSeqNumber_run.
    destruct (getShardIteratorCall t streamId shardId ty seq w)
      as [[body [e1|]] w1]; [by intros [= <- _ _]|].
    by destruct (json_Unmarshal body zero_getShardIteratorResponse)
      as [r [e1|]]; intros [=].
  - intros shardIterator limit next page e w'.
    rewrite GetRecordsWithLimit_run.
    destruct (getRecordsCall t shardIterator limit w) as [[body [e1|]] w1];
      [by intros [= <- <- _ _]|].
    by destruct (json_Unmarshal body zero_getRecordsResponse) as [r [e1|]];
      intros [=].
Qed.

(** X3. [DescribeStream] returns a description exactly when it returns
    no error: the pointer is nil if and only if the error is not. *)
Theorem DescribeStream_description_iff_no_error (t : Table ServerT)
    (streamId : string) (w : World) :
  is_Some (DescribeStream t streamId w).1.1 <->
  (DescribeStream t streamId w).1.2 = None.
Proof.
  rewrite DescribeStream_run.
  destruct (describeStreamCall t streamId w) as [[body [e|]] w'].
  - cbn. split; [by intros [? [=]] | done].
  - destruct (json_Unmarshal body zero_describeStreamResponse) as [r [e|]]; cbn.
    + split; [by intros [? [=]] | done].
    + split; [done | by eexists].
Qed.

(** X4. What a successful call returns, and when a call is successful:
    [DescribeStream], [ListStreams] and [GetShardIteratorWithSeqNumber]
    return no error exactly when their one exchange returned no error
    and the body decoded without error, and the value returned is then
    the decoded field ([StreamDescription], [StreamIds],
    [ShardIterator]). *)
Theorem wrappers_succeed_iff (t : Table ServerT) (w w' : World) :
  (forall streamId d,
     DescribeStream t streamId w = ((Some d, None), w') <->
     exists body r,
       describeStreamCall t streamId w = ((body, None), w') /\
       json_Unmarshal body zero_describeStreamResponse = (r, None) /\
       d = StreamDescription r) /\
  (forall ids,
     ListStreams t w = ((ids, None), w') <->
     exists body r,
       listStreamsCall t w = ((body, None), w') /\
       json_Unmarshal body zero_listStreamsResponse = (r, None) /\
       ids = StreamIds r) /\
  (forall streamId shardId ty seq it,
     GetShardIteratorWithSeqNumber t streamId shardId ty seq w
     = ((it, None), w') <->
     exists body r,
       getShardIteratorCall t streamId shardId ty seq w = ((body, None), w') /\
       json_Unmarshal body zero_getShardIteratorResponse = (r, None) /\
       it = ShardIterator r).
Proof.
  split; [|split].
  - intros streamId d. rewrite DescribeStream_run. split.
    + destruct (describeStreamCall t streamId w) as [[body [e|]] w1];
        [intros [=]|].
      destruct (json_Unmarshal body zero_describeStreamResponse)
        as [r [e|]] eqn:Hdec; intros [= <- <-].
      by exists body, r.
    + intros (body & r & -> & -> & ->). done.
  - intros ids. rewrite ListStreams_run. split.
    + destruct (listStreamsCall t w) as [[body [e|]] w1]; [intros [=]|].
      destruct (json_Unmarshal body zero_listStreamsResponse)
        as [r [e|]] eqn:Hdec; intros [= <- <-].
      by exists body, r.
    + intros (body & r & -> & -> & ->). done.
  - intros streamId shardId ty seq it.
    rewrite GetShardIteratorWithSeqNumber_run. split.
    + destruct (getShardIteratorCall t streamId shardId ty seq w)
        as [[body [e|]] w1]; [intros [=]|].
      destruct (json_Unmarshal body zero_getShardIteratorResponse)
        as [r [e|]] eqn:Hdec; intros [= <- <-].
      by exists body, r.
    + intros (body & r & -> & -> & ->). done.
Qed.

(** X5. The wrappers make up no error of their own: the error a call
    returns is the error of its exchange when there is one (the body is
    then not decoded), and otherwise the error of decoding the body. *)
Theorem wrappers_error_origin (t : Table ServerT) (w : World) :
  (forall streamId,
     (DescribeStream t streamId w).1.2 =
     match (describeStreamCall t streamId w).1.2 with
     | Some e => Some e
     | None => (json_Unmarshal (describeStreamCall t streamId w).1.1
                  zero_describeStreamResponse).2
     end) /\
  ((ListStreams t w).1.2 =
   match (listStreamsCall t w).1.2 with
   | Some e => Some e
   | None => (json_Unmarshal (listStreamsCall t w).1.1
                zero_listStreamsResponse).2
   end) /\
  (forall streamId shardId ty seq,
     (GetShardIteratorWithSeqNumber t streamId shardId ty seq w).1.2 =
     match (getShardIteratorCall t streamId shardId ty seq w).1.2 with
     | Some e => Some e
     | None => (json_Unmarshal
                  (getShardIteratorCall t streamId shardId ty seq w).1.1
                  zero_getShardIteratorResponse).2
     end) /\
  (forall shardIterator limit,
     (GetRecordsWithLimit t shardIterator limit w).1.2 =
     match (getRecordsCall t shardIterator limit w).1.2 with
     | Some e => Some e
     | None => (json_Unmarshal (getRecordsCall t shardIterator limit w).1.1
                  zero_getRecordsResponse).2
     end).
Proof.
  split; [|split; [|split]].
  - intros streamId. rewrite DescribeStream_run.
    destruct (describeStreamCall t streamId w) as [[body [e|]] w']; [done|].
    cbn. by destruct (json_Unmarshal body zero_describeStreamResponse)
      as [r [e|]].
  - rewrite ListStreams_run.
    destruct (listStreamsCall t w) as [[body [e|]] w']; [done|].
    cbn. by destruct (json_Unmarshal body zero_listStreamsResponse)
      as [r [e|]].
  - intros streamId shardId ty seq. rewrite GetShardIteratorWithSeqNumber_run.
    destruct (getShardIteratorCall t streamId shardId ty seq w)
      as [[body [e|]] w']; [done|].
    cbn. by destruct (json_Unmarshal body zero_getShardIteratorResponse)
      as [r [e|]].
  - intros shardIterator limit. rewrite GetRecordsWithLimit_run.
    destruct (getRecordsCall t shardIterator limit w) as [[body [e|]] w'];
      [done|].
    cbn. by destruct (json_Unmarshal body zero_getRecordsResponse)
      as [r [e|]].
Qed.

(** X6. Every call is one exchange with the server, whatever comes of
    it: success, failed exchange or failed decoding, each of the six
    methods leaves the world as its one request left it. *)
Theorem wrappers_one_exchange (t : Table ServerT) (w : World) :
  (forall streamId,
     (DescribeStream t streamId w).2 = (describeStreamCall t streamId w).2) /\
  ((ListStreams t w).2 = (listStreamsCall t w).2) /\
  (forall streamId shardId ty seq,
     (GetShardIteratorWithSeqNumber t streamId shardId ty seq w).2
     = (getShardIteratorCall t streamId shardId ty seq w).2) /\
  (forall streamId shardId ty,
     (GetShardIterator t streamId shardId ty w).2
     = (getShardIteratorCall t streamId shardId ty "" w).2) /\
  (forall shardIterator limit,
     (GetRecordsWithLimit t shardIterator limit w).2
     = (getRecordsCall t shardIterator limit w).2) /\
  (forall shardIterator,
     (GetRecords t shardIterator w).2 = (getRecordsCall t shardIterator 0 w).2).
Proof.
  assert (Hit : forall streamId shardId ty seq,
     (GetShardIteratorWithSeqNumber t streamId shardId ty seq w).2
     = (getShardIteratorCall t streamId shardId ty seq w).2).
  { intros streamId shardId ty seq. rewrite GetShardIteratorWithSeqNumber_run.
    destruct (getShardIteratorCall t streamId shardId ty seq w)
      as [[body [e|]] w']; [done|].
    by destruct (json_Unmarshal body zero_getShardIteratorResponse)
      as [r [e|]]. }
  assert (Hrec : forall shardIterator limit,
     (GetRecordsWithLimit t shardIterator limit w).2
     = (getRecordsCall t shardIterator limit w).2).
  { intros shardIterator limit. rewrite GetRecordsWithLimit_run.
    destruct (getRecordsCall t shardIterator limit w) as [[body [e|]] w'];
      [done|].
    by destruct (json_Unmarshal body zero_getRecordsResponse) as [r [e|]]. }
  split; [|split; [|split; [|split; [|split]]]].
  - intros streamId. rewrite DescribeStream_run.
    destruct (describeStreamCall t streamId w) as [[body [e|]] w']; [done|].
    by destruct (json_Unmarshal body zero_describeStreamResponse) as [r [e|]].
  - rewrite ListStreams_run.
    destruct (listStreamsCall t w) as [[body [e|]] w']; [done|].
    by destruct (json_Unmarshal body zero_listStreamsResponse) as [r [e|]].
  - exact Hit.
  - intros streamId shardId ty. apply Hit.
  - exact Hrec.
  - intros shardIterator. apply Hrec.
Qed.

(** X7. The two short forms keep the rule of their long forms: when
    [GetShardIterator] returns an error its iterator is empty, and when
    [GetRecords] returns an error its next iterator is empty and its
    page is nil. *)
Theorem short_forms_error_comes_with_zero_values (t : Table ServerT)
    (w : World) :
  (forall streamId shardId ty it e w',
     GetShardIterator t streamId shardId ty w = ((it, Some e), w') ->
     it = "") /\
  (forall shardIterator next page e w',
     GetRecords t shardIterator w = ((next, page, Some e), w') ->
     next = "" /\ page = None).
Proof.
  split.
  - intros streamId shardId ty it e w'.
    change (GetShardIterator t streamId shardId ty w)
      with (GetShardIteratorWithSeqNumber t streamId shardId ty "" w).
    rewrite GetShardIteratorWithSeqNumber_run.
    destruct (getShardIteratorCall t streamId shardId ty "" w)
      as [[body [e1|]] w1]; [by intros [= <- _ _]|].
    by destruct (json_Unmarshal body zero_getShardIteratorResponse)
      as [r [e1|]]; intros [=].
  - intros shardIterator next page e w'.
    change (GetRecords t shardIterator w)
      with (GetRecordsWithLimit t shardIterator 0 w).
    rewrite GetRecordsWithLimit_run.
    destruct (getRecordsCall t shardIterator 0 w) as [[body [e1|]] w1];
      [by intros [= <- <- _ _]|].
    by destruct (json_Unmarshal body zero_getRecordsResponse) as [r [e1|]];
      intros [=].
Qed.

(** X8. Of the table they are called on, the stream methods use the
    server only: [DescribeStream], [GetShardIteratorWithSeqNumber] and
    [GetRecordsWithLimit] behave the same on two tables of one server,
    whatever the names of the tables; [ListStreams] is the one method
    that sends the name, and behaves the same when the names agree
    too. *)
Theorem stream_methods_ignore_table_name (t1 t2 : Table ServerT) (w : World) :
  Server t1 = Server t2 ->
  (forall streamId, DescribeStream t1 streamId w = DescribeStream t2 streamId w)
  /\
  (forall streamId shardId ty seq,
     GetShardIteratorWithSeqNumber t1 streamId shardId ty seq w
     = GetShardIteratorWithSeqNumber t2 streamId shardId ty seq w) /\
  (forall shardIterator limit,
     GetRecordsWithLimit t1 shardIterator limit w
     = GetRecordsWithLimit t2 shardIterator limit w) /\
  (Name t1 = Name t2 -> ListStreams t1 w = ListStreams t2 w).
Proof.
  intros Hserver. split; [|split; [|split]].
  - intros streamId. by rewrite !DescribeStream_run, Hserver.
  - intros streamId shardId ty seq.
    by rewrite !GetShardIteratorWithSeqNumber_run, Hserver.
  - intros shardIterator limit. by rewrite !GetRecordsWithLimit_run, Hserver.
  - intros Hname. by rewrite !ListStreams_run, Hserver, Hname.
Qed.

#[local] Abbreviation poll :=
  (Fetcher.poll NewEmptyQuery AddGetRecordsRequest target queryServer).


End ClientFacts.

(** * Properties of the rendering of sequence-number ranges *)

Section StringFacts.

Lemma append_cons (c : Ascii.ascii) (s1 s2 : string) :
  String c s1 +:+ s2 = String c (s1 +:+ s2).
Proof. reflexivity. Qed.

Lemma length_append (s1 s2 : string) :
  String.length (s1 +:+ s2) = (String.length s1 + String.length s2)%nat.
Proof.
  induction s1 as [|c s1 IH]; [done|].
  rewrite append_cons. simpl. by rewrite IH.
Qed.

Lemma append_assoc (s1 s2 s3 : string) :
  (s1 +:+ s2) +:+ s3 = s1 +:+ (s2 +:+ s3).
Proof.
  induction s1 as [|c s1 IH]; [done|].
  by rewrite !append_cons, IH.
Qed.

Lemma append_cancel_r (s1 s2 t : string) : s1 +:+ t = s2 +:+ t -> s1 = s2.
Proof.
  revert s2. induction s1 as [|c s1 IH]; intros [|c' s2] Heq.
  - done.
  - apply (f_equal String.length) in Heq.
    rewrite !length_append in Heq. simpl in Heq. lia.
  - apply (f_equal String.length) in Heq.
    rewrite !length_append in Heq. simpl in Heq. lia.
  - rewrite !append_cons in Heq. injection Heq as -> Heq.
    f_equal. by apply IH.
Qed.

(** Two strings free of [c] that are followed by [c] end at the same
    place. *)
Lemma split_at_first (c : Ascii.ascii) (e1 e2 x1 x2 : string) :
  mentions c e1 = false -> mentions c e2 = false ->
  e1 +:+ String c x1 = e2 +:+ String c x2 ->
  e1 = e2 /\ x1 = x2.
Proof.
  revert e2. induction e1 as [|a e1 IH]; intros [|b e2] H1 H2 Heq;
    rewrite ?append_cons in Heq; simpl in H1, H2.
  - by injection Heq as ->.
  - injection Heq as -> _. by rewrite decide_True in H2.
  - injection Heq as -> _. by rewrite decide_True in H1.
  - injection Heq as -> Heq.
    destruct (decide (b = c)); [done|].
    by destruct (IH e2 H1 H2 Heq) as [-> ->].
Qed.

(** X1. The rendering of a range by [String] tells ranges apart as long
    as their ending sequence numbers hold no comma (as the decimal
    sequence numbers of the service do): two such ranges with the same
    rendering are the same range. *)
Theorem SequenceNumberRangeT_String_inj (a b : SequenceNumberRangeT) :
  mentions comma (EndingSequenceNumber a) = false ->
  mentions comma (EndingSequenceNumber b) = false ->
  SequenceNumberRangeT_String a = SequenceNumberRangeT_String b ->
  a = b.
Proof.
  destruct a as [e1 s1], b as [e2 s2]. unfold SequenceNumberRangeT_String.
  cbn [EndingSequenceNumber StartingSequenceNumber].
  intros H1 H2 Heq.
  apply (inj (String.append _)) in Heq.
  apply (split_at_first comma) in Heq as [-> Heq]; [|done..].
  repeat injection Heq as Heq.
  by apply append_cancel_r in Heq as ->.
Qed.

(** X2. Without that proviso the rendering is ambiguous: moving the
    text [", StartingSequenceNumber: "] from the ending sequence number
    to the starting one gives a different range with the same
    rendering. *)
Theorem SequenceNumberRangeT_String_ambiguous (x y z : string) :
  let a := {| EndingSequenceNumber := x +:+ ", StartingSequenceNumber: " +:+ y;
              StartingSequenceNumber := z |} in
  let b := {| EndingSequenceNumber := x;
              StartingSequenceNumber :=
                y +:+ ", StartingSequenceNumber: " +:+ z |} in
  SequenceNumberRangeT_String a = SequenceNumberRangeT_String b /\
  EndingSequenceNumber a <> EndingSequenceNumber b.
Proof.
  cbn zeta. split.
  - unfold SequenceNumberRangeT_String.
    cbn [EndingSequenceNumber StartingSequenceNumber].
    f_equal. by rewrite !append_assoc.
  - cbn [EndingSequenceNumber]. intros Heq.
    apply (f_equal String.length) in Heq.
    rewrite !length_append in Heq. cbn in Heq. lia.
Qed.

End StringFacts.

(** * The constants *)

Section ConstantFacts.

(** X9. The constants of each of the three named string types are
    pairwise different: the four shard iterator types, the four stream
    statuses and the four stream view types. *)
Theorem constants_pairwise_distinct :
  NoDup [ShardIteratorAtSequenceNumber; ShardIteratorAfterSequenceNumber;
         ShardIteratorTrimHorizon; ShardIteratorLatest] /\
  NoDup [StreamStatusCreating; StreamStatusDeleting; StreamStatusActive;
         StreamStatusUpdating] /\
  NoDup [StreamViewTypeKeysOnly; StreamViewTypeNewImage;
         StreamViewTypeOldImage; StreamViewTypeNewAndOldImage].
Proof.
  split; [|split];
    repeat (apply NoDup_cons; split;
            [rewrite ?elem_of_cons, elem_of_nil; intuition discriminate|]);
    apply NoDup_nil_2.
Qed.

End ConstantFacts.

(** * Properties of the Shard Tree *)

Section ShardTreeFacts.
Import ShardTree.

Lemma eligible_spec (done : gset string) (sh : ShardT) :
  eligible done sh = true <-> ParentShardId sh = "" \/ ParentShardId sh ∈ done.
Proof.
  unfold eligible. rewrite orb_true_iff.
  by rewrite !bool_decide_eq_true.
Qed.

Lemma elem_of_eligibleShards (tr : t) (done : gset string) (shardId : string) :
  shardId ∈ eligibleShards tr done <->
  (exists sh, arena tr !! shardId = Some sh /\
              (ParentShardId sh = "" \/ ParentShardId sh ∈ done)) /\
  shardId ∉ done.
Proof.
  unfold eligibleShards. rewrite elem_of_difference, elem_of_dom.
  unfold is_Some. setoid_rewrite map_lookup_filter_Some. simpl.
  by setoid_rewrite eligible_spec.
Qed.

(** [markCompleted] is irreversible: no operation takes a shard out of
    the completed set. *)
Lemma completed_apply (o : op) (tr : t) (x : string) :
  x ∈ completed tr -> x ∈ completed (apply tr o).
Proof.
  destruct o as [shards|shardId]; cbn; [done|].
  intros Hx. apply elem_of_union. by right.
Qed.

Lemma completed_run (ops : list op) (tr : t) (x : string) :
  x ∈ completed tr -> x ∈ completed (run ops tr).
Proof.
  revert tr. induction ops as [|o ops IH]; intros tr Hx; [done|].
  change (run (o :: ops) tr) with (run ops (apply tr o)).
  by apply IH, completed_apply.
Qed.

Lemma completed_markCompleted (shardId : string) (tr : t) :
  shardId ∈ completed (markCompleted shardId tr).
Proof. cbn. apply elem_of_union. left. by apply elem_of_singleton. Qed.

(** C6. Whatever tree one starts from and whatever operations have been
    applied to it, the tree does not report a shard that has a parent
    as long as that parent is not in the completed set, and once a
    shard has been marked completed the tree does not report it again,
    whatever operations follow. *)
Theorem ShardTree_report_invariant (tr : t) (earlier later : list op)
    (shardId : string) :
  (forall sh,
     arena (run earlier tr) !! shardId = Some sh ->
     ParentShardId sh <> "" ->
     ParentShardId sh ∉ completed (run earlier tr) ->
     shardId ∉ report (run earlier tr)) /\
  (shardId ∉ report (run later (markCompleted shardId (run earlier tr)))).
Proof.
  split.
  - intros sh Hsh Hparent Hopen. unfold report.
    rewrite elem_of_eligibleShards.
    intros [(sh' & Hsh' & Hel) _]. simplify_eq. tauto.
  - unfold report. rewrite elem_of_eligibleShards. intros [_ Hfresh].
    apply Hfresh, completed_run, completed_markCompleted.
Qed.

(** The report is not idle: a shard of the tree that is not completed
    and whose parent is absent or completed is reported. *)
Lemma reported_when_due (tr : t) (shardId : string) (sh : ShardT) :
  arena tr !! shardId = Some sh ->
  shardId ∉ completed tr ->
  ParentShardId sh = "" \/ ParentShardId sh ∈ completed tr ->
  shardId ∈ report tr.
Proof.
  intros Hsh Hfresh Hel. unfold report. apply elem_of_eligibleShards.
  split; [by exists sh | done].
Qed.

End ShardTreeFacts.

(** * The paging directory and the clients that follow its cursor *)

Section PagingFacts.
Import Wire Paged.

Lemma after_unique {A : Type} (key : A -> string) (pre : list A) (x : A)
    (rest : list A) :
  NoDup (key <$> (pre ++ x :: rest))%list ->
  after key (key x) (pre ++ x :: rest)%list = rest.
Proof.
  induction pre as [|y pre IH]; intros Hnd; cbn.
  - by rewrite decide_True.
  - cbn in Hnd. apply NoDup_cons in Hnd as [Hy Hnd].
    rewrite decide_False; [by apply IH|].
    intros Heq. apply Hy. rewrite Heq, fmap_app. cbn.
    apply elem_of_app. right. apply elem_of_cons. by left.
Qed.

Lemma page_at {A : Type} (key : A -> string) (n : nat) (cursor : string)
    (pre rest : list A) :
  NoDup (key <$> (pre ++ rest))%list ->
  cursorAt key cursor pre ->
  page key n cursor (pre ++ rest)%list
  = (take n rest,
     if decide (length rest <= n)%nat then ""
     else default "" (key <$> last (take n rest))).
Proof.
  intros Hnd [[-> ->]|(Hne & pre' & x & -> & <-)]; unfold page.
  - by rewrite decide_True.
  - rewrite decide_False by done.
    rewrite <- app_assoc in *. cbn in *. by rewrite after_unique.
Qed.

(** The cursor of a page that leaves entries behind is the key of its
    last entry, and the part handed out so far ends with it. *)
Lemma cursorAt_next {A : Type} (key : A -> string) (n : nat)
    (pre rest : list A) :
  (0 < n)%nat -> (n < length rest)%nat ->
  (forall x, x ∈ rest -> key x <> "") ->
  cursorAt key (default "" (key <$> last (take n rest)))
    (pre ++ take n rest)%list.
Proof.
  intros Hn Hlen Hkeys. right.
  destruct (last (take n rest)) as [x|] eqn:Hlast.
  - apply last_Some in Hlast as [l' Hl']. cbn. split.
    + apply Hkeys. apply (subseteq_take n). rewrite Hl'.
      apply elem_of_app. right. apply elem_of_cons. by left.
    + exists (pre ++ l')%list, x. by rewrite Hl', app_assoc.
  - apply last_None in Hlast. apply (f_equal length) in Hlast.
    rewrite length_take in Hlast. cbn in Hlast. lia.
Qed.

Lemma stringField_here (k v : string) (q : Query) :
  stringField k ((k, FString v) :: q) = v.
Proof. unfold stringField. cbn. by rewrite decide_True. Qed.

Lemma stringField_skip (k k' : string) (v : Field) (q : Query) :
  k' <> k -> stringField k ((k', v) :: q) = stringField k q.
Proof. intros Hne. unfold stringField. cbn. by rewrite decide_False. Qed.

Lemma listStreamsQuery_fields (name cursor : string) :
  stringField "TableName" (listStreamsQuery name cursor) = name /\
  stringField "ExclusiveStartStreamId" (listStreamsQuery name cursor) = cursor.
Proof.
  unfold listStreamsQuery, addTableByName, NewEmptyQuery.
  destruct (decide (cursor = "")) as [->|Hne].
  - by rewrite stringField_here, stringField_skip.
  - by rewrite stringField_skip, !stringField_here.
Qed.

(** What the directory answers to a [ListStreams] request for a table,
    with or without an exclusive start. *)
Lemma answer_ListStreams (name cursor : string) (w : World) :
  answer (target "ListStreams") (listStreamsQuery name cursor) w
  = match lookupBy name (streamsOf w) with
    | None => (Garbled, Some (ProviderError "ResourceNotFoundException"))
    | Some ids =>
        (ListStreamsBody
           {| LastEvaluatedStreamId := (page id (pageSize w) cursor ids).2;
              StreamIds := Some (page id (pageSize w) cursor ids).1 |},
         None)
    end.
Proof.
  unfold answer. rewrite decide_True by done.
  destruct (listStreamsQuery_fields name cursor) as [-> ->].
  destruct (lookupBy name (streamsOf w)) as [ids|]; [|done].
  by destruct (page id (pageSize w) cursor ids).
Qed.

(** Following the cursor to the end yields what is left of the list
    of the table, whatever the page size, provided the fuel covers the
    number of pages. *)
Lemma ListStreams_spec_from_complete (fuel : nat) (t : Table unit)
    (cursor : string) (w : World) (pre rest : list string) :
  lookupBy (Name t) (streamsOf w) = Some (pre ++ rest)%list ->
  NoDup (pre ++ rest)%list ->
  (forall x, x ∈ rest -> x <> "") ->
  (0 < pageSize w)%nat ->
  cursorAt id cursor pre ->
  (length rest < fuel)%nat ->
  (ListStreams_spec_from fuel t cursor w).1 = (rest, None).
Proof.
  revert cursor w pre rest.
  induction fuel as [|fuel IH]; intros cursor w pre rest Hids Hnd Hkeys Hn Hcur Hlen;
    [lia|].
  cbn [ListStreams_spec_from]. unfold mbind, IO_bind, queryServer.
  rewrite answer_ListStreams, Hids.
  rewrite page_at by (by rewrite ?list_fmap_id).
  cbn [json_Unmarshal Unmarshal_listStreamsResponse decode default
       LastEvaluatedStreamId StreamIds fst snd elems].
  destruct (decide (length rest <= pageSize w)%nat) as [Hle|Hgt].
  - rewrite decide_True by done. cbn. by rewrite take_ge.
  - assert (Hnext : cursorAt id
              (default "" (id <$> last (take (pageSize w) rest)))
              (pre ++ take (pageSize w) rest)%list)
      by (apply cursorAt_next; [done | lia | done]).
    assert (Hne : default "" (id <$> last (take (pageSize w) rest)) <> "").
    { destruct Hnext as [[_ Hnil]|[Hne _]]; [|done].
      apply (f_equal length) in Hnil.
      rewrite length_app, length_take in Hnil. cbn in Hnil. lia. }
    rewrite decide_False by done.
    match goal with
    | |- context [ListStreams_spec_from fuel t ?c ?w1] =>
        specialize (IH c w1 (pre ++ take (pageSize w) rest)%list
                      (drop (pageSize w) rest))
    end.
    cbn [streamsOf pageSize] in IH.
    rewrite <- app_assoc, take_drop in IH.
    assert (Hrest : forall x, x ∈ drop (pageSize w) rest -> x <> "")
      by (intros x Hx; apply Hkeys; by apply (subseteq_drop (pageSize w))).
    assert (Hfuel : (length (drop (pageSize w) rest) < fuel)%nat)
      by (rewrite length_drop; lia).
    specialize (IH Hids Hnd Hrest Hn Hnext Hfuel).
    destruct (ListStreams_spec_from fuel t _ _) as [[more err] w2].
    cbn in IH. injection IH as -> ->. cbn. by rewrite take_drop.
Qed.

(** Refinement gap behind C1: on a directory whose table has more
    streams than fit a page, the cursor-following client returns all of
    them and [ListStreams] returns the first page only. *)
Lemma ListStreams_vs_spec (t : Table unit) (w : World) (ids : list string)
    (fuel : nat) :
  lookupBy (Name t) (streamsOf w) = Some ids ->
  NoDup ids ->
  (forall x, x ∈ ids -> x <> "") ->
  (0 < pageSize w)%nat ->
  (length ids < fuel)%nat ->
  (ListStreams_spec fuel t w).1 = (ids, None) /\
  (ListStreams t w).1 = (Some (take (pageSize w) ids), None).
Proof.
  intros Hids Hnd Hkeys Hn Hfuel. split.
  - apply (ListStreams_spec_from_complete fuel t "" w [] ids); try done.
    by left.
  - unfold ListStreams. rewrite ListStreams_run.
    unfold queryServer.
    pose proof (answer_ListStreams (Name t) "" w) as Hanswer.
    unfold listStreamsQuery in Hanswer. rewrite decide_True in Hanswer by done.
    rewrite Hanswer, Hids.
    assert (Hpage : page id (pageSize w) "" ids
                    = (take (pageSize w) ids,
                       if decide (length ids <= pageSize w)%nat then ""
                       else default "" (id <$> last (take (pageSize w) ids))))
      by (apply (page_at id (pageSize w) "" [] ids);
          [by rewrite list_fmap_id | by left]).
    by rewrite Hpage.
Qed.

Lemma describeStreamQuery_fields (streamId cursor : string) :
  stringField "StreamId" (describeStreamQuery streamId cursor) = streamId /\
  stringField "ExclusiveStartShardId" (describeStreamQuery streamId cursor)
  = cursor.
Proof.
  unfold describeStreamQuery, AddDescribeStreamRequest, NewEmptyQuery.
  destruct (decide (cursor = "")) as [->|Hne].
  - by rewrite stringField_here, stringField_skip.
  - by rewrite stringField_skip, !stringField_here.
Qed.

Lemma answer_DescribeStream (streamId cursor : string) (w : World) :
  answer (target "DescribeStream") (describeStreamQuery streamId cursor) w
  = match lookupBy streamId (shardsOf w) with
    | None => (Garbled, Some (ProviderError "ResourceNotFoundException"))
    | Some shards =>
        (DescribeStreamBody {| StreamDescription :=
           {| KeySchema := Some [("id", "HASH")];
              LastEvaluatedShardId :=
                (page ShardId (pageSize w) cursor shards).2;
              Shards := Some (page ShardId (pageSize w) cursor shards).1;
              StreamARN := "";
              StreamID := streamId;
              StreamDescriptionT_StreamStatus := StreamStatusActive;
              TableName := "" |} |},
         None)
    end.
Proof.
  unfold answer. rewrite decide_False by done. rewrite decide_True by done.
  destruct (describeStreamQuery_fields streamId cursor) as [-> ->].
  destruct (lookupBy streamId (shardsOf w)) as [shards|]; [|done].
  by destruct (page ShardId (pageSize w) cursor shards).
Qed.

Lemma DescribeStream_spec_from_complete (fuel : nat) (t : Table unit)
    (streamId cursor : string) (w : World) (pre rest : list ShardT) :
  lookupBy streamId (shardsOf w) = Some (pre ++ rest)%list ->
  NoDup (ShardId <$> (pre ++ rest))%list ->
  (forall sh, sh ∈ rest -> ShardId sh <> "") ->
  (0 < pageSize w)%nat ->
  cursorAt ShardId cursor pre ->
  (length rest < fuel)%nat ->
  (DescribeStream_spec_from fuel t streamId cursor w).1 = (rest, None).
Proof.
  revert cursor w pre rest.
  induction fuel as [|fuel IH];
    intros cursor w pre rest Hids Hnd Hkeys Hn Hcur Hlen; [lia|].
  cbn [DescribeStream_spec_from]. unfold mbind, IO_bind, queryServer.
  rewrite answer_DescribeStream, Hids.
  rewrite page_at by done.
  cbn [json_Unmarshal Unmarshal_describeStreamResponse decode default
       StreamDescription LastEvaluatedShardId Shards fst snd elems].
  destruct (decide (length rest <= pageSize w)%nat) as [Hle|Hgt].
  - rewrite decide_True by done. cbn. by rewrite take_ge.
  - assert (Hnext : cursorAt ShardId
              (default "" (ShardId <$> last (take (pageSize w) rest)))
              (pre ++ take (pageSize w) rest)%list)
      by (apply cursorAt_next; [done | lia | done]).
    assert (Hne : default "" (ShardId <$> last (take (pageSize w) rest)) <> "").
    { destruct Hnext as [[_ Hnil]|[Hne _]]; [|done].
      apply (f_equal length) in Hnil.
      rewrite length_app, length_take in Hnil. cbn in Hnil. lia. }
    rewrite decide_False by done.
    match goal with
    | |- context [DescribeStream_spec_from fuel t streamId ?c ?w1] =>
        specialize (IH c w1 (pre ++ take (pageSize w) rest)%list
                      (drop (pageSize w) rest))
    end.
    cbn [shardsOf pageSize] in IH.
    rewrite <- app_assoc, take_drop in IH.
    assert (Hrest : forall sh, sh ∈ drop (pageSize w) rest -> ShardId sh <> "")
      by (intros x Hx; apply Hkeys; by apply (subseteq_drop (pageSize w))).
    assert (Hfuel : (length (drop (pageSize w) rest) < fuel)%nat)
      by (rewrite length_drop; lia).
    specialize (IH Hids Hnd Hrest Hn Hnext Hfuel).
    destruct (DescribeStream_spec_from fuel t streamId _ _) as [[more err] w2].
    cbn in IH. injection IH as -> ->. cbn. by rewrite take_drop.
Qed.

(** Refinement gap behind C3: on a directory whose stream has more
    shards than fit a page, the cursor-following client returns all of
    them and [DescribeStream] returns a description with the first page
    only. *)
Lemma DescribeStream_vs_spec (t : Table unit) (streamId : string) (w : World)
    (shards : list ShardT) (fuel : nat) :
  lookupBy streamId (shardsOf w) = Some shards ->
  NoDup (ShardId <$> shards) ->
  (forall sh, sh ∈ shards -> ShardId sh <> "") ->
  (0 < pageSize w)%nat ->
  (length shards < fuel)%nat ->
  (DescribeStream_spec fuel t streamId w).1 = (shards, None) /\
  exists d, (DescribeStream t streamId w).1 = (Some d, None) /\
            Shards d = Some (take (pageSize w) shards).
Proof.
  intros Hids Hnd Hkeys Hn Hfuel. split.
  - apply (DescribeStream_spec_from_complete fuel t streamId "" w [] shards);
      try done.
    by left.
  - unfold DescribeStream. rewrite DescribeStream_run.
    unfold queryServer.
    pose proof (answer_DescribeStream streamId "" w) as Hanswer.
    unfold describeStreamQuery in Hanswer.
    rewrite decide_True in Hanswer by done.
    rewrite Hanswer, Hids.
    assert (Hpage : (page ShardId (pageSize w) "" shards).1
                    = take (pageSize w) shards)
      by (pose proof (page_at ShardId (pageSize w) "" [] shards Hnd
                        (or_introl (conj eq_refl eq_refl))) as Hp;
          cbn [app] in Hp; by rewrite Hp).
    cbn. eexists. split; [reflexivity|]. by rewrite <- Hpage.
Qed.

Lemma page_from_start {A : Type} (key : A -> string) (n : nat) (l : list A) :
  (page key n "" l).1 = take n l.
Proof. unfold page. by rewrite decide_True. Qed.

Lemma take_all_iff {A : Type} (n : nat) (l : list A) :
  take n l = l <-> (length l <= n)%nat.
Proof.
  split; [|apply take_ge].
  intros Heq. apply (f_equal length) in Heq. rewrite length_take in Heq. lia.
Qed.

(** X10. Against a provider that hands out the streams of a table
    [pageSize] at a time, [ListStreams] returns the first [pageSize]
    stream identifiers of the table, in the provider's order, and no
    error; what it returns is the whole list exactly when the table has
    no more streams than fit one page. *)
Theorem ListStreams_complete_iff_one_page (t : Table unit) (w : World)
    (ids : list string) :
  lookupBy (Name t) (streamsOf w) = Some ids ->
  (ListStreams t w).1 = (Some (take (pageSize w) ids), None) /\
  (elems (ListStreams t w).1.1 = ids <-> (length ids <= pageSize w)%nat).
Proof.
  intros Hids.
  assert (Hrun : (ListStreams t w).1 = (Some (take (pageSize w) ids), None)).
  { unfold ListStreams. rewrite ListStreams_run. unfold queryServer.
    pose proof (answer_ListStreams (Name t) "" w) as Hanswer.
    unfold listStreamsQuery in Hanswer. rewrite decide_True in Hanswer by done.
    by rewrite Hanswer, Hids, page_from_start. }
  split; [exact Hrun|]. rewrite Hrun. cbn. apply take_all_iff.
Qed.

(** X11. Against a provider that hands out the shards of a stream
    [pageSize] at a time, [DescribeStream] returns a description whose
    shards are the first [pageSize] shards of the stream, in the
    provider's order, and no error; the description holds all the
    shards exactly when the stream has no more shards than fit one
    page. *)
Theorem DescribeStream_complete_iff_one_page (t : Table unit)
    (streamId : string) (w : World) (shards : list ShardT) :
  lookupBy streamId (shardsOf w) = Some shards ->
  exists d,
    (DescribeStream t streamId w).1 = (Some d, None) /\
    Shards d = Some (take (pageSize w) shards) /\
    (elems (Shards d) = shards <-> (length shards <= pageSize w)%nat).
Proof.
  intros Hids.
  unfold DescribeStream. rewrite DescribeStream_run. unfold queryServer.
  pose proof (answer_DescribeStream streamId "" w) as Hanswer.
  unfold describeStreamQuery in Hanswer. rewrite decide_True in Hanswer by done.
  rewrite Hanswer, Hids, page_from_start.
  eexists. split; [reflexivity|]. split; [done|]. cbn. apply take_all_iff.
Qed.

End PagingFacts.

(** * Runs on the test doubles *)

Section Runs.
Import Wire Sample.

(** [ListStreams] on the directory: the first two of the three streams. *)
Lemma ListStreams_first_page_run :
  Paged.queryServer (Server Paged.table) (target "ListStreams")
    (addTableByName (Name Paged.table) NewEmptyQuery) directory
  = ((ListStreamsBody firstStreams, None),
     ask (target "ListStreams") [("TableName", FString "orders")] directory) /\
  json_Unmarshal (ListStreamsBody firstStreams) zero_listStreamsResponse
  = (firstStreams, None) /\
  Paged.ListStreams Paged.table directory
  = ((Some ["s1"; "s2"], None),
     ask (target "ListStreams") [("TableName", FString "orders")] directory).
Proof.
  split; [reflexivity|]. split; [reflexivity|].
  apply (ListStreams_returns_first_page NewEmptyQuery addTableByName target
           Paged.queryServer Paged.table directory _
           (ListStreamsBody firstStreams) firstStreams);
    reflexivity.
Defined.

(** C1 fails as stated: the table has three streams, served two at a
    time. Following the cursor yields all three; [ListStreams] returns
    the first two and has sent a single request. *)
Lemma ListStreams_misses_second_page :
  (Paged.ListStreams_spec 2 Paged.table directory).1
  = (["s1"; "s2"; "s3"], None) /\
  (Paged.ListStreams Paged.table directory).1 = (Some ["s1"; "s2"], None) /\
  length (Paged.received (Paged.ListStreams Paged.table directory).2) = 1 /\
  elems (Paged.ListStreams Paged.table directory).1.1
  <> (Paged.ListStreams_spec 2 Paged.table directory).1.1.
Proof.
  split; [reflexivity|]. split; [reflexivity|]. split; [reflexivity|].
  vm_compute. discriminate.
Qed.

(** [DescribeStream] on the directory: the first two of the three
    shards, and the cursor to the rest. *)
Lemma DescribeStream_first_page_run :
  Paged.queryServer (Server Paged.table) (target "DescribeStream")
    (AddDescribeStreamRequest "s1" NewEmptyQuery) directory
  = ((DescribeStreamBody firstShards, None),
     ask (target "DescribeStream") [("StreamId", FString "s1")] directory) /\
  json_Unmarshal (DescribeStreamBody firstShards) zero_describeStreamResponse
  = (firstShards, None) /\
  Paged.DescribeStream Paged.table "s1" directory
  = ((Some (StreamDescription firstShards), None),
     ask (target "DescribeStream") [("StreamId", FString "s1")] directory).
Proof.
  split; [reflexivity|]. split; [reflexivity|].
  apply (DescribeStream_returns_first_page NewEmptyQuery
           AddDescribeStreamRequest target Paged.queryServer Paged.table "s1"
           directory _ (DescribeStreamBody firstShards) firstShards);
    reflexivity.
Defined.

(** C3 fails as stated: the stream has the shards S0, S1 and S2, served
    two at a time. Following the cursor yields all three;
    [DescribeStream] returns a description with S0 and S1 only, whose
    [LastEvaluatedShardId] still points at the rest. *)
Lemma DescribeStream_misses_second_page :
  (Paged.DescribeStream_spec 2 Paged.table "s1" directory).1
  = ([S0; S1; S2], None) /\
  (exists d,
     (Paged.DescribeStream Paged.table "s1" directory).1 = (Some d, None) /\
     Shards d = Some [S0; S1] /\ LastEvaluatedShardId d = "S1") /\
  length (Paged.received (Paged.DescribeStream Paged.table "s1" directory).2) = 1.
Proof.
  split; [reflexivity|]. split; [|reflexivity].
  exists (StreamDescription firstShards). by repeat split.
Qed.

(** [GetShardIteratorWithSeqNumber] with a policy that takes no
    sequence number, and a sequence number. *)
Lemma GetShardIterator_trim_horizon_with_sequence_number_run :
  Canned.queryServer (Server Canned.table) (target "GetShardIterator")
    (AddGetShardIteratorRequest "s1" "S0" ShardIteratorTrimHorizon "42"
       NewEmptyQuery)
    (canned [(GetShardIteratorBody iterator1, None)])
  = ((GetShardIteratorBody iterator1, None),
     {| Canned.answers := [];
        Canned.received :=
          [(target "GetShardIterator",
            AddGetShardIteratorRequest "s1" "S0" ShardIteratorTrimHorizon "42"
              NewEmptyQuery)] |}) /\
  json_Unmarshal (GetShardIteratorBody iterator1) zero_getShardIteratorResponse
  = (iterator1, None) /\
  Canned.GetShardIteratorWithSeqNumber Canned.table "s1" "S0"
    ShardIteratorTrimHorizon "42"
    (canned [(GetShardIteratorBody iterator1, None)])
  = (("it-1", None),
     {| Canned.answers := [];
        Canned.received :=
          [(target "GetShardIterator",
            AddGetShardIteratorRequest "s1" "S0" ShardIteratorTrimHorizon "42"
              NewEmptyQuery)] |}).
Proof.
  split; [reflexivity|]. split; [reflexivity|].
  apply (GetShardIteratorWithSeqNumber_forwards_any_combination
           NewEmptyQuery AddGetShardIteratorRequest target
           Canned.queryServer Canned.table "s1" "S0"
           ShardIteratorTrimHorizon "42"
           (canned [(GetShardIteratorBody iterator1, None)]) _
           (GetShardIteratorBody iterator1) iterator1);
    reflexivity.
Defined.

(** C2 fails as stated: opening at a sequence number without giving one
    is not refused. The request reaches the server with an empty
    sequence number, and the call succeeds when the server answers. *)
Lemma GetShardIterator_without_sequence_number_is_sent :
  Canned.GetShardIterator Canned.table "s1" "S0" ShardIteratorAtSequenceNumber
    (canned [(GetShardIteratorBody iterator1, None)])
  = (("it-1", None),
     {| Canned.answers := [];
        Canned.received :=
          [(target "GetShardIterator",
            [("StreamId", FString "s1"); ("ShardId", FString "S0");
             ("ShardIteratorType", FString "AT_SEQUENCE_NUMBER");
             ("SequenceNumber", FString "")])] |}) /\
  Canned.GetShardIteratorWithSeqNumber Canned.table "s1" "S0"
    ShardIteratorLatest "42" (canned [(GetShardIteratorBody iterator1, None)])
  = (("it-1", None),
     {| Canned.answers := [];
        Canned.received :=
          [(target "GetShardIterator",
            [("StreamId", FString "s1"); ("ShardId", FString "S0");
             ("ShardIteratorType", FString "LATEST");
             ("SequenceNumber", FString "42")])] |}).
Proof. split; reflexivity. Qed.

(** [GetRecordsWithLimit] against a server that throttles. *)
Lemma GetRecordsWithLimit_throttled_run :
  Canned.queryServer (Server Canned.table) (target "GetRecords")
    (AddGetRecordsRequest "it-1" 10 NewEmptyQuery) throttledOnce
  = ((Garbled, Some throttled),
     {| Canned.answers := [(GetRecordsBody twoRecords, None)];
        Canned.received :=
          [(target "GetRecords", AddGetRecordsRequest "it-1" 10 NewEmptyQuery)] |})
  /\
  Canned.GetRecordsWithLimit Canned.table "it-1" 10 throttledOnce
  = (("", None, Some throttled),
     {| Canned.answers := [(GetRecordsBody twoRecords, None)];
        Canned.received :=
          [(target "GetRecords", AddGetRecordsRequest "it-1" 10 NewEmptyQuery)] |}).
Proof.
  split; [reflexivity|].
  apply (GetRecordsWithLimit_returns_first_failure NewEmptyQuery
           AddGetRecordsRequest target Canned.queryServer Canned.table
           "it-1" 10 throttledOnce _ Garbled throttled).
  reflexivity.
Defined.

(** C4 fails as stated: the server throttles one request and would
    answer the next one with two records. The fetch returns the
    throttling error; the server has received one request and the
    answer to a second attempt is still waiting. *)
Lemma GetRecordsWithLimit_does_not_retry :
  (Canned.GetRecordsWithLimit Canned.table "it-1" 10 throttledOnce).1
  = ("", None, Some (ProviderError "ProvisionedThroughputExceededException")) /\
  length (Canned.received
            (Canned.GetRecordsWithLimit Canned.table "it-1" 10 throttledOnce).2)
  = 1 /\
  Canned.answers
    (Canned.GetRecordsWithLimit Canned.table "it-1" 10 throttledOnce).2
  = [(GetRecordsBody twoRecords, None)].
Proof. repeat split. Qed.

(** A page of two records comes back as received. *)
Lemma GetRecords_page_as_received_run :
  Canned.GetRecordsWithLimit Canned.table "it-1" 10
    (canned [(GetRecordsBody twoRecords, None)])
  = (("it-2", Some [mkRecord "7"; mkRecord "9"], None),
     {| Canned.answers := [];
        Canned.received :=
          [(target "GetRecords", AddGetRecordsRequest "it-1" 10 NewEmptyQuery)] |})
  /\
  exists body r,
    Canned.queryServer (Server Canned.table) (target "GetRecords")
      (AddGetRecordsRequest "it-1" 10 NewEmptyQuery)
      (canned [(GetRecordsBody twoRecords, None)])
    = ((body, None),
       {| Canned.answers := [];
          Canned.received :=
            [(target "GetRecords",
              AddGetRecordsRequest "it-1" 10 NewEmptyQuery)] |}) /\
    json_Unmarshal body zero_getRecordsResponse = (r, None) /\
    Some [mkRecord "7"; mkRecord "9"] = Records r.
Proof.
  split; [reflexivity|].
  apply (proj1 (GetRecords_page_as_received NewEmptyQuery
                  AddGetRecordsRequest target Canned.queryServer Canned.table
                  "it-1" (canned [(GetRecordsBody twoRecords, None)]) _
                  "it-2" (Some [mkRecord "7"; mkRecord "9"])) 10%Z).
  reflexivity.
Defined.


(** The three outcomes of a round side by side: an answer with no next
    iterator exhausts the shard, records or not; a throttled fetch
    leaves it open where it was. *)
Lemma poll_outcomes :
  (Fetcher.poll NewEmptyQuery AddGetRecordsRequest target Canned.queryServer
     Canned.table 0 (Fetcher.Open "it-1")
     (canned [(GetRecordsBody lastRecords, None)])).1
  = (Fetcher.Exhausted,
     Some (Fetcher.Page (Some [mkRecord "100"]) None)) /\
  (Fetcher.poll NewEmptyQuery AddGetRecordsRequest target Canned.queryServer
     Canned.table 0 (Fetcher.Open "it-1") throttledOnce).1
  = (Fetcher.Open "it-1", Some (Fetcher.Failure throttled)).
Proof. split; reflexivity. Qed.

(** A mistyped answer: the decoder reports an error after it has filled
    in the stream identifiers, and every wrapper returns zero values
    with the error. *)
Lemma error_comes_with_zero_values_run :
  (json_Unmarshal (Mistyped (ListStreamsBody firstStreams))
     zero_listStreamsResponse
   = (firstStreams, Some UnmarshalTypeError)) /\
  (Canned.DescribeStream Canned.table "s1" mistyped).1
  = (None, Some UnmarshalTypeError) /\
  (Canned.ListStreams Canned.table mistyped).1
  = (None, Some UnmarshalTypeError) /\
  (Canned.GetShardIteratorWithSeqNumber Canned.table "s1" "S0"
     ShardIteratorLatest "" mistyped).1
  = ("", Some UnmarshalTypeError) /\
  (Canned.GetRecordsWithLimit Canned.table "it-1" 0 mistyped).1
  = ("", None, Some UnmarshalTypeError).
Proof.
  pose proof (error_comes_with_zero_values NewEmptyQuery
                AddDescribeStreamRequest addTableByName
                AddGetShardIteratorRequest AddGetRecordsRequest target
                Canned.queryServer Canned.table mistyped)
    as (Hdescribe & Hlist & Hiterator & Hrecords).
  split; [reflexivity|].
  split.
  { destruct (Canned.DescribeStream Canned.table "s1" mistyped)
      as [[d e] w'] eqn:Hrun.
    assert (He : e = Some UnmarshalTypeError) by (by injection Hrun as _ <- _).
    subst e. by rewrite (Hdescribe "s1" d UnmarshalTypeError w' Hrun). }
  split.
  { destruct (Canned.ListStreams Canned.table mistyped)
      as [[ids e] w'] eqn:Hrun.
    assert (He : e = Some UnmarshalTypeError) by (by injection Hrun as _ <- _).
    subst e. by rewrite (Hlist ids UnmarshalTypeError w' Hrun). }
  split.
  { destruct (Canned.GetShardIteratorWithSeqNumber Canned.table "s1" "S0"
                ShardIteratorLatest "" mistyped) as [[it e] w'] eqn:Hrun.
    assert (He : e = Some UnmarshalTypeError) by (by injection Hrun as _ <- _).
    subst e.
    by rewrite (Hiterator "s1" "S0" ShardIteratorLatest "" it
                  UnmarshalTypeError w' Hrun). }
  destruct (Canned.GetRecordsWithLimit Canned.table "it-1" 0 mistyped)
    as [[[next page] e] w'] eqn:Hrun.
  assert (He : e = Some UnmarshalTypeError) by (by injection Hrun as _ _ <- _).
  subst e.
  by destruct (Hrecords "it-1" 0%Z next page UnmarshalTypeError w' Hrun)
    as [-> ->].
Defined.

End Runs.

Section ShardTreeRuns.
Import ShardTree Sample.

(** The split of S0: before S0 is completed its child S1 is not
    reported, and once S0 has been marked completed it is not reported
    any more, also after S1 has been marked. *)
Lemma ShardTree_report_invariant_run :
  arena (run [] family) !! "S1" = Some S1 /\
  ParentShardId S1 <> "" /\
  (ParentShardId S1 ∉ completed (run [] family)) /\
  ("S1" ∉ report (run [] family)) /\
  ("S0" ∉ report (run [MarkCompleted "S1"]
                    (markCompleted "S0" (run [] family)))).
Proof.
  assert (Hsh : arena (run [] family) !! "S1" = Some S1) by reflexivity.
  assert (Hparent : ParentShardId S1 <> "") by discriminate.
  assert (Hopen : ParentShardId S1 ∉ completed (run [] family))
    by apply not_elem_of_empty.
  split; [exact Hsh|]. split; [exact Hparent|]. split; [exact Hopen|].
  split.
  - exact (proj1 (ShardTree_report_invariant family [] [] "S1")
             S1 Hsh Hparent Hopen).
  - exact (proj2 (ShardTree_report_invariant family []
                    [MarkCompleted "S1"] "S0")).
Defined.

(** Draining the split in order: at first only the root is due; with
    S0 completed both children are, and S0 is not. *)
Lemma split_children_due_after_root :
  ("S0" ∈ report family) /\
  ("S1" ∈ report (run [MarkCompleted "S0"] family)) /\
  ("S2" ∈ report (run [MarkCompleted "S0"] family)) /\
  ("S0" ∉ report (run [MarkCompleted "S0"] family)).
Proof.
  assert (Hdone : "S0" ∈ completed (run [MarkCompleted "S0"] family))
    by apply completed_markCompleted.
  assert (Hnot : forall x : string, x <> "S0" ->
            x ∉ completed (run [MarkCompleted "S0"] family)).
  { intros x Hx. cbn. rewrite elem_of_union, elem_of_singleton.
    intros [?|Hin]; [done|]. by apply not_elem_of_empty in Hin. }
  split; [|split; [|split]].
  - apply (reported_when_due family "S0" S0);
      [reflexivity | apply not_elem_of_empty | by left].
  - apply (reported_when_due _ "S1" S1);
      [reflexivity | by apply Hnot | by right].
  - apply (reported_when_due _ "S2" S2);
      [reflexivity | by apply Hnot | by right].
  - unfold report. rewrite elem_of_eligibleShards. by intros [_ Hfresh].
Qed.

End ShardTreeRuns.

(** * Further runs on the test doubles *)

Section MoreRuns.
Import Wire Sample.

(** The range of S0 has no comma in its ending sequence number. *)
Lemma SequenceNumberRangeT_String_inj_run :
  mentions comma (EndingSequenceNumber closedRange) = false /\
  SequenceNumberRangeT_String closedRange
  = SequenceNumberRangeT_String closedRange /\
  closedRange = closedRange.
Proof.
  split; [reflexivity|]. split; [reflexivity|].
  apply (SequenceNumberRangeT_String_inj closedRange closedRange);
    reflexivity.
Defined.

(** The short forms against a mistyped answer. *)
Lemma short_forms_error_comes_with_zero_values_run :
  (Canned.GetShardIterator Canned.table "s1" "S0" ShardIteratorLatest
     mistyped).1
  = ("", Some UnmarshalTypeError) /\
  (Canned.GetRecords Canned.table "it-1" mistyped).1
  = ("", None, Some UnmarshalTypeError).
Proof.
  pose proof (short_forms_error_comes_with_zero_values NewEmptyQuery
                AddGetShardIteratorRequest AddGetRecordsRequest target
                Canned.queryServer Canned.table mistyped)
    as (Hiterator & Hrecords).
  split.
  { destruct (Canned.GetShardIterator Canned.table "s1" "S0"
                ShardIteratorLatest mistyped) as [[it e] w'] eqn:Hrun.
    assert (He : e = Some UnmarshalTypeError) by (by injection Hrun as _ <- _).
    subst e.
    by rewrite (Hiterator "s1" "S0" ShardIteratorLatest it
                  UnmarshalTypeError w' Hrun). }
  destruct (Canned.GetRecords Canned.table "it-1" mistyped)
    as [[[next page] e] w'] eqn:Hrun.
  assert (He : e = Some UnmarshalTypeError) by (by injection Hrun as _ _ <- _).
  subst e.
  by destruct (Hrecords "it-1" next page UnmarshalTypeError w' Hrun)
    as [-> ->].
Defined.

(** [DescribeStream] called on two tables of the same server. *)
Lemma stream_methods_ignore_table_name_run :
  Server Canned.table = Server invoices /\
  Name Canned.table <> Name invoices /\
  Canned.DescribeStream Canned.table "s1"
    (canned [(DescribeStreamBody firstShards, None)])
  = Canned.DescribeStream invoices "s1"
      (canned [(DescribeStreamBody firstShards, None)]).
Proof.
  split; [reflexivity|]. split; [discriminate|].
  exact (proj1 (stream_methods_ignore_table_name NewEmptyQuery
                  AddDescribeStreamRequest addTableByName
                  AddGetShardIteratorRequest AddGetRecordsRequest target
                  Canned.queryServer Canned.table invoices
                  (canned [(DescribeStreamBody firstShards, None)]) eq_refl)
           "s1").
Defined.

(** Three streams, two to a page: the first two come back. *)
Lemma ListStreams_complete_iff_one_page_run :
  Paged.lookupBy (Name Paged.table) (Paged.streamsOf directory)
  = Some ["s1"; "s2"; "s3"] /\
  (Paged.ListStreams Paged.table directory).1 = (Some ["s1"; "s2"], None) /\
  (elems (Paged.ListStreams Paged.table directory).1.1 = ["s1"; "s2"; "s3"]
   <-> (3 <= 2)%nat).
Proof.
  split; [reflexivity|].
  exact (ListStreams_complete_iff_one_page Paged.table directory
           ["s1"; "s2"; "s3"] eq_refl).
Defined.

(** Three shards, two to a page: the first two come back. *)
Lemma DescribeStream_complete_iff_one_page_run :
  Paged.lookupBy "s1" (Paged.shardsOf directory) = Some [S0; S1; S2] /\
  exists d,
    (Paged.DescribeStream Paged.table "s1" directory).1 = (Some d, None) /\
    Shards d = Some [S0; S1] /\
    (elems (Shards d) = [S0; S1; S2] <-> (3 <= 2)%nat).
Proof.
  split; [reflexivity|].
  exact (DescribeStream_complete_iff_one_page Paged.table "s1" directory
           [S0; S1; S2] eq_refl).
Defined.

End MoreRuns.
